(** * RankItem REST API: a shallow embedding of the backend and its properties

    The backend is an Express application (app.js) that mounts one router
    (routes/rankItemRoutes.js) over one Mongoose model (models/rankItem.js)
    and ends its middleware chain with middlewares/errorHandler.js.

    The handlers are [async] functions that each await one call of the
    Mongoose model.  They are embedded as pure functions from the collection
    before the request to the collection after it, the response sent, and
    what was written to the console.  What the handlers get from outside the
    request (the ObjectId the driver generates for a new document, the clock
    used by [timestamps: true], and a failure of the store itself) is passed
    explicitly in an [Env].

    Mongoose and MongoDB are not part of the repository.  Module [Mongoose]
    models the part of their documented behaviour that the routes rely on:
    ObjectId casting, document validation on [save], update validators for
    [runValidators: true], unique indexes, and sorting.

    The pages of the front end (src/pages) are embedded as functions on
    their React state: the form helpers and zod schemas of the add and
    edit pages, and the handlers that call the API, with each [fetch]
    taken as one call of [app]. *)

From Stdlib Require Import ZArith NArith String Ascii List Lia.
From Stdlib Require Import Permutation Sorted.
From stdpp Require Import base option gmap strings list fin_maps sorting.

Local Open Scope string_scope.

(** ** ObjectId: twelve bytes, written as 24 hexadecimal characters *)

Module ObjectId.

(** An ObjectId is a number below [2^96]. *)
Definition bound : N := (2 ^ 96)%N.

Definition hexDigit (c : ascii) : option N :=
  let n := N_of_ascii c in
  if ((48 <=? n) && (n <=? 57))%N then Some (n - 48)%N
  else if ((97 <=? n) && (n <=? 102))%N then Some (n - 87)%N
  else if ((65 <=? n) && (n <=? 70))%N then Some (n - 55)%N
  else None.

Fixpoint parseHex (acc : N) (s : string) : option N :=
  match s with
  | EmptyString => Some acc
  | String c s' =>
      match hexDigit c with
      | Some d => parseHex (16 * acc + d)%N s'
      | None => None
      end
  end.

(** The cast Mongoose applies to [req.params.id] in [findById] and its
    siblings: a string is an ObjectId when it is 24 hexadecimal characters,
    in either case.  (Drivers before bson 5 also take any string of 12
    bytes; the samples below use none.) *)
Definition cast (s : string) : option N :=
  if Nat.eqb (String.length s) 24 then parseHex 0 s else None.

Definition hexChar (d : N) : ascii :=
  if (d <? 10)%N then ascii_of_N (d + 48) else ascii_of_N (d + 87).

Fixpoint toHex (n : nat) (v : N) (acc : string) : string :=
  match n with
  | O => acc
  | S n' => toHex n' (v / 16)%N (String (hexChar (v mod 16)%N) acc)
  end.

(** [toHexString]: how an ObjectId appears in a JSON response. *)
Definition toHexString (oid : N) : string := toHex 24 oid "".

End ObjectId.

Arguments ObjectId.cast : simpl never.
Arguments ObjectId.toHexString : simpl never.

(** ** Values exchanged with the client and with the store *)

(** A JavaScript [Error]: the routes read [message], the error handler
    reads [stack]. *)
Record Error := mkError {
  name : string;
  message : string;
  stack : string
}.

(** The stack of an error raised inside the model layer: the header line
    followed by frames of the library. *)
Definition raise (n msg : string) : Error :=
  {| name := n;
     message := msg;
     stack := n +:+ ": " +:+ msg +:+ " at node_modules/mongoose/lib" |}.

(** [req.body] after [express.json()], restricted to the paths of the
    schema (Mongoose drops other keys in strict mode).  [None] is a key the
    client did not send; a key that is sent holds a value of the type the
    schema declares. *)
Record Body := mkBody {
  b_siteName : option string;
  b_logo : option string;
  b_advantages : option (list string);
  b_welcomeBonus : option string;
  b_payments : option (list string);
  b_promoCode : option string;
  b_rank : option Z;
  b_createAccountUrl : option string;
  b_downloadAppUrl : option string
}.

(** A document of the [RankItem] model (models/rankItem.js), with the
    [_id] the driver assigns and the two fields of [timestamps: true]. *)
Record RankItem := mkRankItem {
  _id : N;
  siteName : string;
  logo : string;
  advantages : list string;
  welcomeBonus : string;
  payments : list string;
  promoCode : string;
  rank : Z;
  createAccountUrl : option string;
  downloadAppUrl : option string;
  createdAt : Z;
  updatedAt : Z
}.

(** The collection: documents keyed by [_id] (MongoDB keeps [_id] unique). *)
Abbreviation Store := (gmap N RankItem).

(** What a handler receives from outside the request. *)
Record Env := mkEnv {
  newObjectId : N;          (* the [_id] given to [new RankItem(...)] *)
  now : Z;                  (* the clock read for createdAt / updatedAt *)
  fault : option Error      (* the store operation fails: no connection, timeout *)
}.

Inductive Thrown (A : Type) : Type :=
| Ok (a : A)
| Throw (e : Error).
Arguments Ok {A} a.
Arguments Throw {A} e.

(** ** The model layer *)

Module Mongoose.

Definition documents (db : Store) : list RankItem :=
  map snd (map_to_list db).

(** *** Validation *)

(** [required: true] on a [String] path: the value must be a string of
    positive length. *)
Definition checkRequiredString (v : option string) : bool :=
  match v with
  | Some s => negb (String.eqb s "")
  | None => false
  end.

(** [required: true] on a [Number] path. *)
Definition checkRequiredNumber (v : option Z) : bool :=
  match v with
  | Some _ => true
  | None => false
  end.

(** [required: true] on an array path: from Mongoose 5 on (the routes call
    [findByIdAndDelete], which exists from 5 on) the check is [v != null],
    and an empty array passes.  A new document gets [[]] for an array path
    the body does not mention, so on [save] the check always sees an
    array. *)
Definition checkRequiredArray (v : option (list string)) : bool :=
  match v with
  | Some _ => true
  | None => false
  end.

Definition failed (path : string) (ok : bool) : list string :=
  if ok then [] else [path].

(** The array default applied by [new RankItem(body)]. *)
Definition arrayDefault (v : option (list string)) : list string :=
  match v with
  | Some l => l
  | None => []
  end.

(** The paths whose validators fail when a new document is saved.  What
    the routes depend on is whether this list is empty; the order in which
    Mongoose reports the failing paths is not modelled. *)
Definition validateSync (b : Body) : list string :=
  failed "siteName" (checkRequiredString (b_siteName b)) ++
  failed "logo" (checkRequiredString (b_logo b)) ++
  failed "advantages" (checkRequiredArray (Some (arrayDefault (b_advantages b)))) ++
  failed "welcomeBonus" (checkRequiredString (b_welcomeBonus b)) ++
  failed "payments" (checkRequiredArray (Some (arrayDefault (b_payments b)))) ++
  failed "promoCode" (checkRequiredString (b_promoCode b)) ++
  failed "rank" (checkRequiredNumber (b_rank b)).

(** Update validators ([runValidators: true]) run on the paths present
    in the update and on no other. *)
Definition updated {A} (path : string) (check : option A -> bool)
    (v : option A) : list string :=
  match v with
  | Some _ => failed path (check v)
  | None => []
  end.

Definition validateUpdate (b : Body) : list string :=
  updated "siteName" checkRequiredString (b_siteName b) ++
  updated "logo" checkRequiredString (b_logo b) ++
  updated "advantages" checkRequiredArray (b_advantages b) ++
  updated "welcomeBonus" checkRequiredString (b_welcomeBonus b) ++
  updated "payments" checkRequiredArray (b_payments b) ++
  updated "promoCode" checkRequiredString (b_promoCode b) ++
  updated "rank" checkRequiredNumber (b_rank b).

Definition requiredMessage (path : string) : string :=
  path +:+ ": Path `" +:+ path +:+ "` is required.".

Fixpoint joinMessages (l : list string) : string :=
  match l with
  | [] => ""
  | [m] => m
  | m :: l' => m +:+ ", " +:+ joinMessages l'
  end.

Definition ValidationError (prefix : string) (paths : list string) : Error :=
  raise "ValidationError"
    (prefix +:+ ": " +:+ joinMessages (map requiredMessage paths)).

Definition CastError (value : string) : Error :=
  raise "CastError"
    ("Cast to ObjectId failed for value " +:+ value +:+
     " (type string) at path _id for model RankItem").

(** The error of a refused write.  The text the store sends also names the
    database and the duplicated key and value; the routes only forward or
    log the message, and the properties below use of its text only that
    it is none of the messages written in the source. *)
Definition DuplicateKeyError (index : string) : Error :=
  raise "MongoServerError"
    ("E11000 duplicate key error collection: rankitems index: " +:+ index).

(** *** Unique indexes: [_id_], and [siteName_1] and [rank_1] from
    [unique: true] *)

(** The index that refuses [d] when it is written under key [self];
    the document already stored under [self], if any, is the one being
    replaced and is not compared. *)
Definition others (self : N) (db : Store) : list RankItem :=
  documents (delete self db).

Definition duplicateIndex (self : N) (d : RankItem) (db : Store) : option string :=
  if existsb (fun o => String.eqb (siteName o) (siteName d)) (others self db)
  then Some "siteName_1"
  else if existsb (fun o => Z.eqb (rank o) (rank d)) (others self db)
  then Some "rank_1"
  else None.

(** *** Sorting: [find({}).sort({ rank: 1 })] *)

Fixpoint insertByRank (d : RankItem) (l : list RankItem) : list RankItem :=
  match l with
  | [] => [d]
  | x :: l' => if (rank d <=? rank x)%Z then d :: l else x :: insertByRank d l'
  end.

Fixpoint sortByRank (l : list RankItem) : list RankItem :=
  match l with
  | [] => []
  | d :: l' => insertByRank d (sortByRank l')
  end.

(** *** Model operations used by the routes *)

(** [RankItem.find({}).sort({ rank: 1 })] *)
Definition find_sort_rank (env : Env) (db : Store) : Thrown (list RankItem) :=
  match fault env with
  | Some e => Throw e
  | None => Ok (sortByRank (documents db))
  end.

(** [new RankItem(body)]: casting and defaults.  Required paths that are
    missing are left to validation; the placeholders below are never
    stored. *)
Definition construct (env : Env) (b : Body) : RankItem :=
  {| _id := newObjectId env;
     siteName := default "" (b_siteName b);
     logo := default "" (b_logo b);
     advantages := arrayDefault (b_advantages b);
     welcomeBonus := default "" (b_welcomeBonus b);
     payments := arrayDefault (b_payments b);
     promoCode := default "" (b_promoCode b);
     rank := default 0%Z (b_rank b);
     createAccountUrl := b_createAccountUrl b;
     downloadAppUrl := b_downloadAppUrl b;
     createdAt := now env;
     updatedAt := now env |}.

(** [new RankItem(body).save()]: validate, then insert. *)
Definition save (env : Env) (db : Store) (b : Body) : Thrown (Store * RankItem) :=
  match validateSync b with
  | (_ :: _) as paths => Throw (ValidationError "RankItem validation failed" paths)
  | [] =>
      match fault env with
      | Some e => Throw e
      | None =>
          let d := construct env b in
          match db !! _id d with
          | Some _ => Throw (DuplicateKeyError "_id_")
          | None =>
              match duplicateIndex (_id d) d db with
              | Some index => Throw (DuplicateKeyError index)
              | None => Ok (<[_id d := d]> db, d)
              end
          end
      end
  end.

(** [RankItem.findById(id)] *)
Definition findById (env : Env) (db : Store) (id : string) : Thrown (option RankItem) :=
  match ObjectId.cast id with
  | None => Throw (CastError id)
  | Some oid =>
      match fault env with
      | Some e => Throw e
      | None => Ok (db !! oid)
      end
  end.

(** The [$set] the store applies: a path of the body replaces the
    stored value, the other paths stay; [updatedAt] is refreshed. *)
Definition applyUpdate (env : Env) (old : RankItem) (b : Body) : RankItem :=
  {| _id := _id old;
     siteName := default (siteName old) (b_siteName b);
     logo := default (logo old) (b_logo b);
     advantages := default (advantages old) (b_advantages b);
     welcomeBonus := default (welcomeBonus old) (b_welcomeBonus b);
     payments := default (payments old) (b_payments b);
     promoCode := default (promoCode old) (b_promoCode b);
     rank := default (rank old) (b_rank b);
     createAccountUrl :=
       match b_createAccountUrl b with
       | Some u => Some u
       | None => createAccountUrl old
       end;
     downloadAppUrl :=
       match b_downloadAppUrl b with
       | Some u => Some u
       | None => downloadAppUrl old
       end;
     createdAt := createdAt old;
     updatedAt := now env |}.

(** [RankItem.findByIdAndUpdate(id, body, { new: true, runValidators: true })] *)
Definition findByIdAndUpdate (env : Env) (db : Store) (id : string) (b : Body)
    : Thrown (Store * option RankItem) :=
  match ObjectId.cast id with
  | None => Throw (CastError id)
  | Some oid =>
      match validateUpdate b with
      | (_ :: _) as paths => Throw (ValidationError "Validation failed" paths)
      | [] =>
          match fault env with
          | Some e => Throw e
          | None =>
              match db !! oid with
              | None => Ok (db, None)
              | Some old =>
                  let d := applyUpdate env old b in
                  match duplicateIndex oid d db with
                  | Some index => Throw (DuplicateKeyError index)
                  | None => Ok (<[oid := d]> db, Some d)
                  end
              end
          end
      end
  end.

(** [RankItem.findByIdAndDelete(id)] *)
Definition findByIdAndDelete (env : Env) (db : Store) (id : string)
    : Thrown (Store * option RankItem) :=
  match ObjectId.cast id with
  | None => Throw (CastError id)
  | Some oid =>
      match fault env with
      | Some e => Throw e
      | None =>
          match db !! oid with
          | None => Ok (db, None)
          | Some d => Ok (delete oid db, Some d)
          end
      end
  end.

End Mongoose.

(** ** The HTTP layer *)

Inductive Json :=
| JMessage (m : string)            (* [{ message: m }] *)
| JItem (d : RankItem)
| JItems (l : list RankItem).

Record Response := mkResponse {
  status : Z;
  body : Json
}.

(** [res.json(v)] without [res.status]: status 200. *)
Definition json (v : Json) : Response := {| status := 200; body := v |}.

Inductive LogEntry :=
| LogReceived (b : Body)           (* console.log('Données reçues:', req.body) *)
| LogCreateError (e : Error)       (* console.error('Erreur lors de la création:', error) *)
| LogStack (s : string).           (* console.error(err.stack) *)

(** A route handler either sends a response or calls [next(error)]. *)
Inductive Outcome :=
| Sent (r : Response)
| Next (e : Error).

Record Handled := mkHandled {
  h_store : Store;
  h_outcome : Outcome;
  h_console : list LogEntry
}.

Inductive Request :=
| GET_all                                   (* GET / *)
| POST (b : Body)                           (* POST / *)
| GET_id (id : string)                      (* GET /:id *)
| PUT_id (id : string) (b : Body)           (* PUT /:id *)
| DELETE_id (id : string).                  (* DELETE /:id *)

(** JavaScript truthiness of an optional string: [undefined] and the empty
    string are falsy.  (The other falsy values of JSON, [null], [0] and
    [false], are not strings and not values a [Body] holds.) *)
Definition truthy (v : option string) : bool :=
  match v with
  | Some s => negb (String.eqb s "")
  | None => false
  end.

(** [a || b] on strings. *)
Definition or_else (a b : string) : string :=
  if String.eqb a "" then b else a.

Definition notFound : Response :=
  {| status := 404; body := JMessage "Rank item not found" |}.

(** routes/rankItemRoutes.js *)
Module Router.

(** GET all rank items *)
Definition get_all (env : Env) (db : Store) : Handled :=
  match Mongoose.find_sort_rank env db with
  | Ok rankItems => mkHandled db (Sent (json (JItems rankItems))) []
  | Throw error => mkHandled db (Next error) []
  end.

(** POST: create a new item.  The handler takes no [next]: its [catch]
    answers by itself. *)
Definition post (env : Env) (db : Store) (b : Body) : Handled :=
  if negb (truthy (b_siteName b)) then
    mkHandled db
      (Sent {| status := 400; body := JMessage "Le nom du site est requis" |})
      [LogReceived b]
  else
    match Mongoose.save env db b with
    | Ok (db', savedItem) =>
        mkHandled db' (Sent {| status := 201; body := JItem savedItem |})
          [LogReceived b]
    | Throw error =>
        mkHandled db
          (Sent {| status := 500;
                   body := JMessage (or_else (message error)
                                       "Erreur lors de la création de l'item") |})
          [LogReceived b; LogCreateError error]
    end.

(** GET a specific rank item by ID *)
Definition get_id (env : Env) (db : Store) (id : string) : Handled :=
  match Mongoose.findById env db id with
  | Ok None => mkHandled db (Sent notFound) []
  | Ok (Some rankItem) => mkHandled db (Sent (json (JItem rankItem))) []
  | Throw error => mkHandled db (Next error) []
  end.

(** PUT (update) a specific rank item by ID *)
Definition put_id (env : Env) (db : Store) (id : string) (b : Body) : Handled :=
  match Mongoose.findByIdAndUpdate env db id b with
  | Ok (db', None) => mkHandled db' (Sent notFound) []
  | Ok (db', Some updatedRankItem) =>
      mkHandled db' (Sent (json (JItem updatedRankItem))) []
  | Throw error => mkHandled db (Next error) []
  end.

(** DELETE a specific rank item by ID *)
Definition delete_id (env : Env) (db : Store) (id : string) : Handled :=
  match Mongoose.findByIdAndDelete env db id with
  | Ok (db', None) => mkHandled db' (Sent notFound) []
  | Ok (db', Some _) =>
      mkHandled db' (Sent (json (JMessage "Rank item deleted successfully"))) []
  | Throw error => mkHandled db (Next error) []
  end.

Definition route (env : Env) (db : Store) (req : Request) : Handled :=
  match req with
  | GET_all => get_all env db
  | POST b => post env db b
  | GET_id id => get_id env db id
  | PUT_id id b => put_id env db id b
  | DELETE_id id => delete_id env db id
  end.

End Router.

(** middlewares/errorHandler.js: log the stack, answer 500 with a fixed
    message. *)
Definition errorHandler (err : Error) : Response * list LogEntry :=
  ({| status := 500; body := JMessage "Something went wrong!" |},
   [LogStack (stack err)]).

Record Reply := mkReply {
  store : Store;
  response : Response;
  console : list LogEntry
}.

(** app.js: the router is mounted before [errorHandler], so an error passed
    to [next] reaches it. *)
Definition app (env : Env) (db : Store) (req : Request) : Reply :=
  let h := Router.route env db req in
  match h_outcome h with
  | Sent r => mkReply (h_store h) r (h_console h)
  | Next err =>
      let '(r, logged) := errorHandler err in
      mkReply (h_store h) r (h_console h ++ logged)
  end.

(** The collections the API can produce, starting from an empty one. *)
Inductive Reachable : Store -> Prop :=
| reach_empty : Reachable ∅
| reach_step env req db : Reachable db -> Reachable (store (app env db req)).

(** ** The pages *)

(** The pages reach the API through [fetch]; behind the proxy of
    vite.config.ts, which strips the [/api] prefix, [/api/rankitems]
    is the router's [/] and [/api/rankitems/<id>] its [/:id].  A [fetch]
    is embedded as one call of [app]; each takes the [Env] of the request
    it causes.  A handler's state updates are applied in program order,
    and a request a handler starts after another (the reload after a
    creation) follows it.  [response.ok] is a status from 200 to 299. *)
Definition ok (r : Response) : bool :=
  (200 <=? status r)%Z && (status r <=? 299)%Z.

(** The array a page takes from [response.json()].  The listing is the
    only response a page reads as an array, and when it answers 2xx it
    answers an array. *)
Definition arrayOf (v : Json) : list RankItem :=
  match v with
  | JItems l => l
  | _ => []
  end.

Inductive Toast :=
| ToastSuccess (m : string)
| ToastError (m : string).

(** The values react-hook-form holds for a form: a field the user never
    filled is [undefined]; the two arrays always hold a list. *)
Record FormValues := mkFormValues {
  v_siteName : option string;
  v_logo : option string;
  v_rank : option Z;
  v_welcomeBonus : option string;
  v_promoCode : option string;
  v_createAccountUrl : option string;
  v_downloadAppUrl : option string;
  v_advantages : list string;
  v_payments : list string
}.

(** [defaultValues: { advantages: [''], payments: [''] }] *)
Definition defaultValues : FormValues :=
  mkFormValues None None None None None None None [""] [""].

(** [keyof Pick<FormData, 'advantages' | 'payments'>] *)
Inductive ArrayField := f_advantages | f_payments.

(** [watch(fieldName)] and [setValue(fieldName, value)] *)
Definition watch (fieldName : ArrayField) (v : FormValues) : list string :=
  match fieldName with
  | f_advantages => v_advantages v
  | f_payments => v_payments v
  end.

Definition setValue (fieldName : ArrayField) (value : list string)
    (v : FormValues) : FormValues :=
  match fieldName with
  | f_advantages =>
      mkFormValues (v_siteName v) (v_logo v) (v_rank v) (v_welcomeBonus v)
        (v_promoCode v) (v_createAccountUrl v) (v_downloadAppUrl v)
        value (v_payments v)
  | f_payments =>
      mkFormValues (v_siteName v) (v_logo v) (v_rank v) (v_welcomeBonus v)
        (v_promoCode v) (v_createAccountUrl v) (v_downloadAppUrl v)
        (v_advantages v) value
  end.

(** [array.filter((x, i) => p(x, i))], the callback seeing the index. *)
Fixpoint filter_index {A} (p : A -> nat -> bool) (i : nat) (l : list A) : list A :=
  match l with
  | [] => []
  | x :: l' =>
      if p x i then x :: filter_index p (S i) l' else filter_index p (S i) l'
  end.

(** The two helpers of the add and edit pages. *)
Definition addField (fieldName : ArrayField) (v : FormValues) : FormValues :=
  let currentValue := watch fieldName v in
  setValue fieldName (currentValue ++ [""]) v.

Definition removeField (fieldName : ArrayField) (index : nat)
    (v : FormValues) : FormValues :=
  let currentValue := watch fieldName v in
  setValue fieldName
    (filter_index (fun _ i => negb (Nat.eqb i index)) 0 currentValue) v.

(** *** Form validation *)

(** The part of zod the two schemas use. *)
Module Zod.

Inductive Path :=
| Key (k : string)
| Element (k : string) (i : nat).

Record Issue := mkIssue {
  path : Path;
  issue_message : string
}.

(** [z.string().min(1, msg)] *)
Definition string_min1 (k msg : string) (v : option string) : list Issue :=
  match v with
  | None => [mkIssue (Key k) "Required"]
  | Some s => if String.eqb s "" then [mkIssue (Key k) msg] else []
  end.

(** [z.number().min(1, msg)] *)
Definition number_min1 (k msg : string) (v : option Z) : list Issue :=
  match v with
  | None => [mkIssue (Key k) "Required"]
  | Some n => if (n <? 1)%Z then [mkIssue (Key k) msg] else []
  end.

(** The elements of [z.array(z.string().nonempty())], from index [i]. *)
Fixpoint nonempty_from (k : string) (i : nat) (l : list string) : list Issue :=
  match l with
  | [] => []
  | s :: l' =>
      (if String.eqb s ""
       then [mkIssue (Element k i) "String must contain at least 1 character(s)"]
       else []) ++ nonempty_from k (S i) l'
  end.

(** [z.array(element).min(1, msg)]: the length first, then the elements. *)
Definition array_min1 (k msg : string) (elements : list Issue)
    (l : list string) : list Issue :=
  (if Nat.ltb (length l) 1 then [mkIssue (Key k) msg] else []) ++ elements.

End Zod.

(** The body [JSON.stringify(data)] gives for parsed form data. *)
Definition bodyOfForm (v : FormValues) : Body :=
  {| b_siteName := v_siteName v;
     b_logo := v_logo v;
     b_advantages := Some (v_advantages v);
     b_welcomeBonus := v_welcomeBonus v;
     b_payments := Some (v_payments v);
     b_promoCode := v_promoCode v;
     b_rank := v_rank v;
     b_createAccountUrl := v_createAccountUrl v;
     b_downloadAppUrl := v_downloadAppUrl v |}.

(** [reset(data)] with a record read from the API. *)
Definition formOfItem (d : RankItem) : FormValues :=
  {| v_siteName := Some (siteName d);
     v_logo := Some (logo d);
     v_rank := Some (rank d);
     v_welcomeBonus := Some (welcomeBonus d);
     v_promoCode := Some (promoCode d);
     v_createAccountUrl := createAccountUrl d;
     v_downloadAppUrl := downloadAppUrl d;
     v_advantages := advantages d;
     v_payments := payments d |}.

(** src/pages/addRankItem.tsx *)
Module AddRankItem.
Import Zod.

Definition rankItemSchema (v : FormValues) : list Issue :=
  string_min1 "siteName" "Site name is required" (v_siteName v) ++
  string_min1 "logo" "Logo URL is required" (v_logo v) ++
  number_min1 "rank" "Rank must be at least 1" (v_rank v) ++
  string_min1 "welcomeBonus" "Welcome bonus is required" (v_welcomeBonus v) ++
  string_min1 "promoCode" "Promo code is required" (v_promoCode v) ++
  array_min1 "advantages" "At least one advantage is required"
    (nonempty_from "advantages" 0 (v_advantages v)) (v_advantages v) ++
  array_min1 "payments" "At least one payment method is required"
    (nonempty_from "payments" 0 (v_payments v)) (v_payments v).

(** The data zod returns on success: the keys of the schema and no other. *)
Definition parsed (v : FormValues) : FormValues :=
  mkFormValues (v_siteName v) (v_logo v) (v_rank v) (v_welcomeBonus v)
    (v_promoCode v) None None (v_advantages v) (v_payments v).

Inductive ViewMode := form | card.

Record State := mkState {
  viewMode : ViewMode;
  allItems : list RankItem;
  loading : bool;
  values : FormValues;
  errors : list Issue;
  toasts : list Toast
}.

Definition initial : State := mkState form [] false defaultValues [] [].

Definition toast (t : Toast) (st : State) : State :=
  mkState (viewMode st) (allItems st) (loading st) (values st) (errors st)
    (toasts st ++ [t]).

Definition fetchAllItems (env : Env) (db : Store) (st : State) : State :=
  let r := response (app env db GET_all) in
  if ok r then
    mkState (viewMode st) (arrayOf (body r)) false (values st) (errors st)
      (toasts st)
  else
    mkState (viewMode st) (allItems st) false (values st) (errors st)
      (toasts st ++ [ToastError "Error fetching items"]).

(** [handleCreate(data)]: one POST and, when it succeeded, the GET of
    [fetchAllItems]. *)
Definition handleCreate (envPost envGet : Env) (db : Store) (data : FormValues)
    (st : State) : Store * State :=
  let r := app envPost db (POST (bodyOfForm data)) in
  if ok (response r) then
    let st1 := toast (ToastSuccess "Item created successfully") st in
    let st2 := mkState (viewMode st1) (allItems st1) (loading st1)
                 defaultValues [] (toasts st1) in
    (store r, fetchAllItems envGet (store r) st2)
  else
    let st1 := toast (ToastError "Error creating item") st in
    (store r, mkState (viewMode st1) (allItems st1) false (values st1)
                (errors st1) (toasts st1)).

(** [handleSubmit(handleCreate)]: the handler runs only on values the
    schema accepts. *)
Definition onSubmit (envPost envGet : Env) (db : Store) (st : State)
    : Store * State :=
  match rankItemSchema (values st) with
  | [] =>
      handleCreate envPost envGet db (parsed (values st))
        (mkState (viewMode st) (allItems st) (loading st) (values st) []
           (toasts st))
  | (_ :: _) as issues =>
      (db, mkState (viewMode st) (allItems st) (loading st) (values st)
             issues (toasts st))
  end.

End AddRankItem.

(** src/pages/EditRankItem.tsx *)
Module EditRankItem.
Import Zod.

Definition rankItemSchema (v : FormValues) : list Issue :=
  string_min1 "siteName" "Site name is required" (v_siteName v) ++
  string_min1 "logo" "Logo URL is required" (v_logo v) ++
  number_min1 "rank" "Rank must be at least 1" (v_rank v) ++
  string_min1 "welcomeBonus" "Welcome bonus is required" (v_welcomeBonus v) ++
  string_min1 "promoCode" "Promo code is required" (v_promoCode v) ++
  string_min1 "createAccountUrl" "Create account URL is required"
    (v_createAccountUrl v) ++
  string_min1 "downloadAppUrl" "Download app URL is required"
    (v_downloadAppUrl v) ++
  array_min1 "advantages" "At least one advantage is required" []
    (v_advantages v) ++
  array_min1 "payments" "At least one payment method is required" []
    (v_payments v).

Record State := mkState {
  loading : bool;
  values : FormValues;
  errors : list Issue;
  toasts : list Toast;
  location : string
}.

(** The page opened on [/edit/<id>]. *)
Definition initial (id : string) : State :=
  mkState false defaultValues [] [] ("/edit/" +:+ id).

(** [fetchItem], run by the effect when the page opens. *)
Definition fetchItem (env : Env) (db : Store) (id : string) (st : State) : State :=
  let r := response (app env db (GET_id id)) in
  match ok r, body r with
  | true, JItem data =>
      mkState false (formOfItem data) [] (toasts st) (location st)
  | _, _ =>
      mkState false (values st) (errors st)
        (toasts st ++ [ToastError "Error fetching item"]) "/add"
  end.

Definition handleUpdate (env : Env) (db : Store) (id : string)
    (data : FormValues) (st : State) : Store * State :=
  let r := app env db (PUT_id id (bodyOfForm data)) in
  if ok (response r) then
    (store r, mkState false (values st) (errors st)
                (toasts st ++ [ToastSuccess "Item updated successfully"])
                "/add-rank-item")
  else
    (store r, mkState false (values st) (errors st)
                (toasts st ++ [ToastError "Error updating item"])
                (location st)).

(** [handleSubmit(handleUpdate)] *)
Definition onSubmit (env : Env) (db : Store) (id : string) (st : State)
    : Store * State :=
  match rankItemSchema (values st) with
  | [] =>
      handleUpdate env db id (values st)
        (mkState (loading st) (values st) [] (toasts st) (location st))
  | (_ :: _) as issues =>
      (db, mkState (loading st) (values st) issues (toasts st) (location st))
  end.

End EditRankItem.

(** src/pages/HomePage.tsx *)
Module HomePage.

Record State := mkState {
  bettingSites : list RankItem;
  isLoading : bool;
  error : option string
}.

Definition initial : State := mkState [] true None.

(** [data.sort((a, b) => a.rank - b.rank)]: the stable ascending sort,
    which [sortByRank] computes. *)
Definition sort_by_rank (data : list RankItem) : list RankItem :=
  Mongoose.sortByRank data.

Definition fetchBettingSites (env : Env) (db : Store) (st : State) : State :=
  let r := response (app env db GET_all) in
  match ok r, body r with
  | true, JItems data => mkState (sort_by_rank data) false None
  | _, _ =>
      mkState (bettingSites st) false
        (Some "Impossible de charger les sites de paris. Veuillez réessayer plus tard.")
  end.

Inductive Component :=
| Loader
| ErrorMessage (error : string)
| NoResults
| BettingSitesList (sites : list RankItem).

(** What [<main>] shows above its fixed sections. *)
Definition view (st : State) : list Component :=
  (if isLoading st then [Loader] else []) ++
  (match error st with
   | Some e => if truthy (Some e) then [ErrorMessage e] else []
   | None => []
   end) ++
  (if negb (isLoading st) && negb (truthy (error st))
      && Nat.eqb (length (bettingSites st)) 0
   then [NoResults] else []) ++
  (if negb (isLoading st) && negb (truthy (error st))
      && Nat.ltb 0 (length (bettingSites st))
   then [BettingSitesList (bettingSites st)] else []).

End HomePage.

(** The list page ([RankItemsList]). *)
Module RankItemsList.

Record State := mkState {
  items : list RankItem;
  isLoading : bool;
  error : option string
}.

Definition initial : State := mkState [] true None.

Definition fetchItems (env : Env) (db : Store) (st : State) : State :=
  let r := response (app env db GET_all) in
  if ok r then mkState (arrayOf (body r)) false (error st)
  else mkState (items st) false (Some "Failed to fetch items").

(** [item._id !== id], on the identifier as JSON carries it. *)
Definition other_than (id : string) (item : RankItem) : bool :=
  negb (String.eqb (ObjectId.toHexString (_id item)) id).

(** [handleDelete(id)]; [confirmed] is the answer to [window.confirm]. *)
Definition handleDelete (confirmed : bool) (env : Env) (db : Store)
    (id : string) (st : State) : Store * State :=
  if negb confirmed then (db, st)
  else
    let r := app env db (DELETE_id id) in
    if ok (response r) then
      (store r, mkState (List.filter (other_than id) (items st))
                  (isLoading st) (error st))
    else
      (store r, mkState (items st) (isLoading st) (Some "Failed to delete item")).

End RankItemsList.

(** ** Sample data *)

Module Sample.

(** The payload of the end-to-end scenario. *)
Definition acme : Body :=
  {| b_siteName := Some "Acme Bet";
     b_logo := Some "http://x/a.png";
     b_advantages := Some ["Fast payouts"];
     b_welcomeBonus := Some "100%";
     b_payments := Some ["Visa"];
     b_promoCode := Some "ACME100";
     b_rank := Some 1%Z;
     b_createAccountUrl := None;
     b_downloadAppUrl := None |}.

Definition empty_body : Body :=
  mkBody None None None None None None None None None.

Definition env1 : Env := {| newObjectId := 1; now := 1000; fault := None |}.
Definition env2 : Env := {| newObjectId := 2; now := 2000; fault := None |}.

Definition id1 : string := ObjectId.toHexString 1.
Definition id2 : string := ObjectId.toHexString 2.

(** The collection after the scenario's POST. *)
Definition db1 : Store := store (app env1 ∅ (POST acme)).

Definition refused : Error :=
  raise "MongooseServerSelectionError" "connect ECONNREFUSED 127.0.0.1:27017".

Definition env_down : Env :=
  {| newObjectId := 3; now := 3000; fault := Some refused |}.

(** A body that only moves the record to rank 2. *)
Definition rank2 : Body :=
  mkBody None None None None None None (Some 2%Z) None None.

(** A body that blanks the logo. *)
Definition no_logo : Body :=
  mkBody None (Some "") None None None None None None None.

(** The scenario's payload with both arrays empty. *)
Definition bare : Body :=
  {| b_siteName := Some "Acme Bet";
     b_logo := Some "http://x/a.png";
     b_advantages := Some [];
     b_welcomeBonus := Some "100%";
     b_payments := Some [];
     b_promoCode := Some "ACME100";
     b_rank := Some 1%Z;
     b_createAccountUrl := None;
     b_downloadAppUrl := None |}.

(** A body that empties both arrays of a stored record. *)
Definition emptied : Body :=
  mkBody None None (Some []) None (Some []) None None None None.

(** A second site, and the collection holding both. *)
Definition bravo : Body :=
  {| b_siteName := Some "Bravo Bet";
     b_logo := Some "http://x/b.png";
     b_advantages := Some ["Live odds"; "Cash out"];
     b_welcomeBonus := Some "50%";
     b_payments := Some ["Mastercard"];
     b_promoCode := Some "BRAVO50";
     b_rank := Some 2%Z;
     b_createAccountUrl := Some "http://x/b/join";
     b_downloadAppUrl := None |}.

Definition db2 : Store := store (app env2 db1 (POST bravo)).

(** The add form filled with the scenario's payload. *)
Definition acme_form : FormValues :=
  mkFormValues (Some "Acme Bet") (Some "http://x/a.png") (Some 1%Z)
    (Some "100%") (Some "ACME100") None None ["Fast payouts"] ["Visa"].

(** The edit form filled for the second site, both links given. *)
Definition bravo_form : FormValues :=
  mkFormValues (Some "Bravo Bet") (Some "http://x/b.png") (Some 2%Z)
    (Some "50%") (Some "BRAVO50") (Some "http://x/b/join")
    (Some "http://x/b/app") ["Live odds"] ["Mastercard"].

(** The collection after the edit form saved the second site. *)
Definition db3 : Store :=
  store (app env1 db2 (PUT_id id2 (bodyOfForm bravo_form))).



End Sample.

(** ** Vocabulary of the properties *)

(** Ascending order of [rank]. *)
Definition rank_le (a b : RankItem) : Prop := (rank a <= rank b)%Z.

(** The record an id in a URL designates: none when the id is not a
    well-formed ObjectId, and none when no document has it. *)
Definition resolve (db : Store) (id : string) : option RankItem :=
  match ObjectId.cast id with
  | Some oid => db !! oid
  | None => None
  end.

Definition serverError : Response :=
  {| status := 500; body := JMessage "Something went wrong!" |}.

(** A stored document read back as a payload: every path of the schema
    with the value the document holds. *)
Definition bodyOf (d : RankItem) : Body :=
  {| b_siteName := Some (siteName d);
     b_logo := Some (logo d);
     b_advantages := Some (advantages d);
     b_welcomeBonus := Some (welcomeBonus d);
     b_payments := Some (payments d);
     b_promoCode := Some (promoCode d);
     b_rank := Some (rank d);
     b_createAccountUrl := createAccountUrl d;
     b_downloadAppUrl := downloadAppUrl d |}.

(** A document passes the validators of the schema as the code runs them:
    the four required strings are non-empty (a rank and the two arrays are
    always there, and an empty array passes). *)
Definition conforms (d : RankItem) : Prop :=
  Mongoose.validateSync (bodyOf d) = [].

(** How one path fares in an update: a path the body supplies takes the
    supplied value, a path it omits keeps the value it had. *)
Definition follows {A} (sent : option A) (before after : A) : Prop :=
  match sent with
  | Some v => after = v
  | None => after = before
  end.

(** The message literals of the source: what a response can say without
    quoting an error. *)
Definition fixedMessages : list string :=
  [ "Something went wrong!";
    "Le nom du site est requis";
    "Rank item not found";
    "Rank item deleted successfully";
    "Erreur lors de la création de l'item" ].

(** No stored record has the site name or the rank of the payload. *)
Definition unused (db : Store) (b : Body) : Prop :=
  forall k o, db !! k = Some o ->
    b_siteName b <> Some (siteName o) /\ b_rank b <> Some (rank o).

(** Strictly ascending order of [rank]. *)
Definition rank_lt (a b : RankItem) : Prop := (rank a < rank b)%Z.

(** Requests that only read. *)
Definition reads (req : Request) : bool :=
  match req with
  | GET_all | GET_id _ => true
  | _ => false
  end.

(** Some stored record has this site name, or this rank. *)
Definition siteName_taken (db : Store) (v : option string) : Prop :=
  exists k o, db !! k = Some o /\ v = Some (siteName o).

Definition rank_taken (db : Store) (v : option Z) : Prop :=
  exists k o, db !! k = Some o /\ v = Some (rank o).

(** The 500 of the create route for an error it caught. *)
Definition createError (e : Error) : Response :=
  {| status := 500;
     body := JMessage (or_else (message e)
                         "Erreur lors de la création de l'item") |}.

(** Each document sits under its own [_id]. *)
Definition keyed (db : Store) : Prop :=
  forall k d, db !! k = Some d -> _id d = k.

(** No two documents share a site name, and no two share a rank. *)
Definition unique (db : Store) : Prop :=
  forall k1 k2 d1 d2,
    k1 <> k2 -> db !! k1 = Some d1 -> db !! k2 = Some d2 ->
    siteName d1 <> siteName d2 /\ rank d1 <> rank d2.

(** ** Facts about ObjectIds *)

Module ObjectIdFacts.
Import ObjectId.

Lemma hexDigit_hexChar (d : N) : (d < 16)%N -> hexDigit (hexChar d) = Some d.
Proof.
  intros Hd.
  assert (Hcases : In d (map N.of_nat (seq 0 16))).
  { apply in_map_iff. exists (N.to_nat d). split; [lia|].
    apply in_seq. lia. }
  simpl in Hcases.
  repeat (destruct Hcases as [<-|Hcases]; [reflexivity|]).
  destruct Hcases.
Qed.

Lemma length_toHex (n : nat) : forall v acc,
  String.length (toHex n v acc) = (n + String.length acc)%nat.
Proof.
  induction n as [|n IH]; intros v acc; simpl; [reflexivity|].
  rewrite IH. simpl. lia.
Qed.

Lemma parseHex_toHex (n : nat) : forall v acc a,
  (v < 16 ^ N.of_nat n)%N ->
  parseHex a (toHex n v acc) = parseHex (a * 16 ^ N.of_nat n + v)%N acc.
Proof.
  induction n as [|n IH]; intros v acc a Hv.
  - simpl in *. f_equal. lia.
  - assert (Hpow : (16 ^ N.of_nat (S n) = 16 * 16 ^ N.of_nat n)%N).
    { rewrite Nat2N.inj_succ. apply N.pow_succ_r'. }
    rewrite Hpow in *.
    cbn [toHex]. rewrite IH.
    + cbn [parseHex]. rewrite hexDigit_hexChar by (apply N.mod_lt; lia).
      f_equal.
      pose proof (N.div_mod v 16 ltac:(lia)). lia.
    + apply N.Div0.div_lt_upper_bound. lia.
Qed.

(** Reading back the identifier a response carried gives the ObjectId. *)
Lemma cast_toHexString (oid : N) :
  (oid < bound)%N -> cast (toHexString oid) = Some oid.
Proof.
  intros Hb. unfold cast, toHexString.
  rewrite length_toHex. simpl Nat.eqb. cbv iota.
  rewrite parseHex_toHex.
  - simpl parseHex. f_equal.
  - unfold bound in Hb.
    replace (16 ^ N.of_nat 24)%N with (2 ^ 96)%N by reflexivity. exact Hb.
Qed.

Lemma cast_length (s : string) (oid : N) :
  cast s = Some oid -> String.length s = 24%nat.
Proof.
  unfold cast. destruct (Nat.eqb (String.length s) 24) eqn:E; [|discriminate].
  intros _. now apply Nat.eqb_eq.
Qed.

End ObjectIdFacts.

(** ** Facts about the model layer *)

Module MongooseFacts.
Import Mongoose.

(** A document is in the collection when some key holds it. *)
Lemma elem_of_documents (db : Store) (d : RankItem) :
  d ∈ documents db <-> exists k, db !! k = Some d.
Proof.
  unfold documents. rewrite list_elem_of_fmap. split.
  - intros [[k d'] [-> Hin]]. exists k. now apply elem_of_map_to_list in Hin.
  - intros [k Hk]. exists (k, d). split; [reflexivity|].
    now apply elem_of_map_to_list.
Qed.

Lemma insertByRank_Permutation (d : RankItem) (l : list RankItem) :
  insertByRank d l ≡ₚ d :: l.
Proof.
  induction l as [|x l IH]; simpl; [reflexivity|].
  destruct (rank d <=? rank x)%Z; [reflexivity|].
  rewrite IH. apply perm_swap.
Qed.

Lemma sortByRank_Permutation (l : list RankItem) : sortByRank l ≡ₚ l.
Proof.
  induction l as [|d l IH]; simpl; [reflexivity|].
  rewrite insertByRank_Permutation. now rewrite IH.
Qed.

Lemma insertByRank_sorted (d : RankItem) (l : list RankItem) :
  StronglySorted rank_le l -> StronglySorted rank_le (insertByRank d l).
Proof.
  induction 1 as [|x l Hs IH Hx]; simpl.
  - constructor; constructor.
  - destruct (rank d <=? rank x)%Z eqn:E.
    + apply Z.leb_le in E. constructor.
      * now constructor.
      * constructor; [exact E|].
        eapply Forall_impl; [exact Hx|].
        intros y Hy. unfold rank_le in *. lia.
    + apply Z.leb_gt in E. constructor; [exact IH|].
      rewrite insertByRank_Permutation. constructor; [|exact Hx].
      unfold rank_le. lia.
Qed.

Lemma sortByRank_sorted (l : list RankItem) :
  StronglySorted rank_le (sortByRank l).
Proof.
  induction l as [|d l IH]; simpl; [constructor|].
  now apply insertByRank_sorted.
Qed.

End MongooseFacts.

(** ** Properties of the API *)

Import Mongoose MongooseFacts.
Local Open Scope Z_scope.

(** Reduce the plumbing of [app] and of the router, and nothing of the
    collection. *)
Ltac reply :=
  cbn [negb h_outcome h_store h_console store response status body
       errorHandler json _id createdAt updatedAt construct].

(** *** Listing *)

(** C3. For every collection, whatever the order in which its records were
    inserted, GET / answers 200 with all stored records, each exactly once,
    in non-decreasing order of [rank]; the collection is left as it was. *)
Theorem list_sorted_by_rank (env : Env) (db : Store) :
  fault env = None ->
  exists l,
    response (app env db GET_all) = json (JItems l) /\
    l ≡ₚ documents db /\
    (forall d, d ∈ l <-> exists k, db !! k = Some d) /\
    StronglySorted rank_le l /\
    store (app env db GET_all) = db.
Proof.
  intros Hf. exists (sortByRank (documents db)).
  unfold app, Router.route, Router.get_all, find_sort_rank. rewrite Hf. simpl.
  repeat split.
  - apply sortByRank_Permutation.
  - rewrite sortByRank_Permutation. apply elem_of_documents.
  - rewrite sortByRank_Permutation. apply elem_of_documents.
  - apply sortByRank_sorted.
Qed.

Lemma list_sorted_by_rank_witness :
  fault Sample.env2 = None /\
  exists l,
    response (app Sample.env2 Sample.db1 GET_all) = json (JItems l) /\
    l ≡ₚ documents Sample.db1 /\
    (forall d, d ∈ l <-> exists k, Sample.db1 !! k = Some d) /\
    StronglySorted rank_le l /\
    store (app Sample.env2 Sample.db1 GET_all) = Sample.db1.
Proof.
  split; [reflexivity|].
  apply (list_sorted_by_rank Sample.env2 Sample.db1). reflexivity.
Defined.

(** *** Creation without a site name *)

(** C7. A POST whose body has no [siteName] is answered 400, and the
    collection after the request is the collection before it: no record is
    created and a listing shows the same records, hence the same count. *)
Theorem create_without_siteName (env : Env) (db : Store) (b : Body) :
  b_siteName b = None ->
  status (response (app env db (POST b))) = 400 /\
  store (app env db (POST b)) = db /\
  length (documents (store (app env db (POST b)))) = length (documents db) /\
  forall env', response (app env' (store (app env db (POST b))) GET_all)
             = response (app env' db GET_all).
Proof.
  intros Hb.
  unfold app, Router.route, Router.post. rewrite Hb. simpl. auto.
Qed.

Lemma create_without_siteName_witness :
  b_siteName Sample.empty_body = None /\
  status (response (app Sample.env2 Sample.db1 (POST Sample.empty_body))) = 400 /\
  store (app Sample.env2 Sample.db1 (POST Sample.empty_body)) = Sample.db1.
Proof.
  split; [reflexivity|].
  destruct (create_without_siteName Sample.env2 Sample.db1 Sample.empty_body)
    as (H400 & Hstore & _); [reflexivity|].
  split; assumption.
Defined.

(** *** Deletion *)

(** C9. For every stored record, DELETE on its id answers 200 with the
    confirmation message and removes the record, so that a later GET on the
    same id answers 404: nothing is kept under that id. *)
Theorem delete_then_read (env env' : Env) (db : Store) (id : string)
    (oid : N) (d : RankItem) :
  ObjectId.cast id = Some oid ->
  db !! oid = Some d ->
  fault env = None ->
  fault env' = None ->
  let after := store (app env db (DELETE_id id)) in
  response (app env db (DELETE_id id))
    = json (JMessage "Rank item deleted successfully") /\
  after !! oid = None /\
  response (app env' after (GET_id id)) = notFound.
Proof.
  intros Hc Hd Hf Hf'.
  unfold app, Router.route, Router.delete_id, Router.get_id,
    findByIdAndDelete, findById.
  rewrite Hc, Hf, Hf', Hd. simpl. rewrite lookup_delete_eq.
  repeat split; reflexivity.
Qed.

Lemma delete_then_read_witness :
  ObjectId.cast Sample.id1 = Some 1%N /\
  Sample.db1 !! 1%N = Some (construct Sample.env1 Sample.acme) /\
  response (app Sample.env2 Sample.db1 (DELETE_id Sample.id1))
    = json (JMessage "Rank item deleted successfully") /\
  response (app Sample.env2
              (store (app Sample.env2 Sample.db1 (DELETE_id Sample.id1)))
              (GET_id Sample.id1)) = notFound.
Proof.
  assert (Hc : ObjectId.cast Sample.id1 = Some 1%N) by (vm_compute; reflexivity).
  assert (Hd : Sample.db1 !! 1%N = Some (construct Sample.env1 Sample.acme))
    by (vm_compute; reflexivity).
  destruct (delete_then_read Sample.env2 Sample.env2 Sample.db1 Sample.id1 1%N
              (construct Sample.env1 Sample.acme) Hc Hd eq_refl eq_refl)
    as (Hr & _ & Hg).
  repeat split; assumption.
Defined.

(** *** Validation and the unique indexes *)

Lemma failed_nil (path : string) (ok : bool) : failed path ok = [] <-> ok = true.
Proof. destruct ok; simpl; split; intros H; congruence. Qed.

Lemma updated_nil {A} (path : string) (check : option A -> bool) (v : option A) :
  updated path check v = [] <-> v = None \/ check v = true.
Proof.
  unfold updated. destruct v as [a|].
  - rewrite failed_nil. split; [auto|]. intros [H|H]; [discriminate|exact H].
  - split; auto.
Qed.

Lemma validateSync_nil (b : Body) :
  validateSync b = [] <->
  checkRequiredString (b_siteName b) = true /\
  checkRequiredString (b_logo b) = true /\
  checkRequiredString (b_welcomeBonus b) = true /\
  checkRequiredString (b_promoCode b) = true /\
  checkRequiredNumber (b_rank b) = true.
Proof.
  unfold validateSync. rewrite !app_nil, !failed_nil. simpl. tauto.
Qed.

Lemma checkRequiredString_true (v : option string) :
  checkRequiredString v = true <-> exists s, v = Some s /\ s <> "".
Proof.
  unfold checkRequiredString. destruct v as [s|].
  - rewrite negb_true_iff, String.eqb_neq. split.
    + intros H. exists s. auto.
    + intros (s' & [= <-] & H). exact H.
  - split; [discriminate|]. intros (s & H & _). discriminate.
Qed.

Lemma elem_of_others (self : N) (db : Store) (o : RankItem) :
  o ∈ others self db <-> exists k, k <> self /\ db !! k = Some o.
Proof.
  unfold others. rewrite elem_of_documents. split.
  - intros [k Hk]. apply lookup_delete_Some in Hk as [Hne Hk]. eauto.
  - intros (k & Hne & Hk). exists k. apply lookup_delete_Some. auto.
Qed.

Lemma existsb_false_elem_of {A} (f : A -> bool) (l : list A) :
  existsb f l = false <-> forall x, x ∈ l -> f x = false.
Proof.
  induction l as [|a l IH]; simpl.
  - split; [|reflexivity]. intros _ x Hx. inversion Hx.
  - rewrite orb_false_iff, IH. split.
    + intros [Ha Hl] x Hx. apply elem_of_cons in Hx as [->|Hx]; auto.
    + intros H. split; [|intros x Hx]; apply H; constructor; assumption.
Qed.

Lemma duplicateIndex_None (self : N) (d : RankItem) (db : Store) :
  duplicateIndex self d db = None <->
  forall k o, k <> self -> db !! k = Some o ->
    siteName o <> siteName d /\ rank o <> rank d.
Proof.
  unfold duplicateIndex. split.
  - destruct (existsb (fun o => String.eqb (siteName o) (siteName d)) _) eqn:E1;
      [discriminate|].
    destruct (existsb (fun o => Z.eqb (rank o) (rank d)) _) eqn:E2;
      [discriminate|].
    intros _ k o Hne Hk.
    assert (Ho : o ∈ others self db) by (apply elem_of_others; eauto).
    apply (proj1 (existsb_false_elem_of _ _)) with (x := o) in E1; [|exact Ho].
    apply (proj1 (existsb_false_elem_of _ _)) with (x := o) in E2; [|exact Ho].
    simpl in E1, E2.
    apply String.eqb_neq in E1. apply Z.eqb_neq in E2. auto.
  - intros H.
    assert (E1 : existsb (fun o => String.eqb (siteName o) (siteName d))
                   (others self db) = false).
    { apply existsb_false_elem_of. intros o Ho.
      apply elem_of_others in Ho as (k & Hne & Hk).
      apply String.eqb_neq. now apply (H k o). }
    assert (E2 : existsb (fun o => Z.eqb (rank o) (rank d))
                   (others self db) = false).
    { apply existsb_false_elem_of. intros o Ho.
      apply elem_of_others in Ho as (k & Hne & Hk).
      apply Z.eqb_neq. now apply (H k o). }
    now rewrite E1, E2.
Qed.

(** *** Identifiers that designate no record *)

(** C1 (as the code has it). When the store answers: for an id that designates
    no stored record, GET, DELETE, and PUT with a body that passes the update
    validators answer 404 if the id is a well-formed ObjectId, and 500 with
    the fixed message of the error handler if it is not; the collection is
    left as it was. *)
Theorem unresolved_id (env : Env) (db : Store) (id : string) (b : Body) :
  fault env = None ->
  validateUpdate b = [] ->
  resolve db id = None ->
  let answer :=
    match ObjectId.cast id with
    | Some _ => notFound
    | None => serverError
    end in
  response (app env db (GET_id id)) = answer /\
  response (app env db (PUT_id id b)) = answer /\
  response (app env db (DELETE_id id)) = answer /\
  store (app env db (PUT_id id b)) = db /\
  store (app env db (DELETE_id id)) = db.
Proof.
  intros Hf Hb Hr. unfold resolve in Hr.
  unfold app, Router.route, Router.get_id, Router.put_id, Router.delete_id,
    findById, findByIdAndUpdate, findByIdAndDelete.
  destruct (ObjectId.cast id) as [oid|]; simpl.
  - rewrite Hb, Hf, Hr. simpl. auto.
  - auto.
Qed.

Lemma unresolved_id_witness :
  resolve Sample.db1 Sample.id2 = None /\
  response (app Sample.env2 Sample.db1 (GET_id Sample.id2)) = notFound /\
  response (app Sample.env2 Sample.db1 (PUT_id Sample.id2 Sample.rank2)) = notFound /\
  response (app Sample.env2 Sample.db1 (DELETE_id Sample.id2)) = notFound.
Proof.
  assert (Hr : resolve Sample.db1 Sample.id2 = None) by (vm_compute; reflexivity).
  destruct (unresolved_id Sample.env2 Sample.db1 Sample.id2 Sample.rank2
              eq_refl eq_refl Hr) as (Hg & Hp & Hd & _).
  repeat split; assumption.
Defined.

(** C1 (as stated) fails: "abc" is not a well-formed identifier and matches
    no record, and the three operations answer 500. *)
Lemma malformed_id_is_500 :
  ObjectId.cast "abc" = None /\
  resolve Sample.db1 "abc" = None /\
  status (response (app Sample.env2 Sample.db1 (GET_id "abc"))) = 500 /\
  status (response (app Sample.env2 Sample.db1 (PUT_id "abc" Sample.rank2))) = 500 /\
  status (response (app Sample.env2 Sample.db1 (DELETE_id "abc"))) = 500.
Proof. vm_compute. repeat split; reflexivity. Qed.

(** *** Creation followed by a read *)

Lemma bodyOf_construct (env : Env) (b : Body) :
  validateSync b = [] ->
  is_Some (b_advantages b) ->
  is_Some (b_payments b) ->
  bodyOf (construct env b) = b.
Proof.
  intros Hv [adv Ha] [pay Hp].
  apply validateSync_nil in Hv as (Hs & Hl & Hw & Hc & Hr).
  apply checkRequiredString_true in Hs as (s & Hs & _).
  apply checkRequiredString_true in Hl as (l & Hl & _).
  apply checkRequiredString_true in Hw as (w & Hw & _).
  apply checkRequiredString_true in Hc as (c & Hc & _).
  destruct b as [bs bl ba bw bp bc br bu bd]. simpl in *. subst.
  destruct br as [r|]; [|discriminate]. reflexivity.
Qed.

Lemma save_ok (env : Env) (db : Store) (b : Body) :
  validateSync b = [] ->
  unused db b ->
  db !! newObjectId env = None ->
  fault env = None ->
  save env db b
    = Ok (<[newObjectId env := construct env b]> db, construct env b).
Proof.
  intros Hv Hu Hfresh Hf. unfold save. rewrite Hv, Hf. simpl.
  rewrite Hfresh.
  assert (Hd : duplicateIndex (newObjectId env) (construct env b) db = None).
  { apply duplicateIndex_None. intros k o _ Hk.
    destruct (Hu k o Hk) as [Hs Hr].
    apply validateSync_nil in Hv as (Hs' & _ & _ & _ & Hr').
    apply checkRequiredString_true in Hs' as (s & Hs' & _).
    destruct (b_rank b) as [r|] eqn:Er; [|discriminate].
    simpl. rewrite Hs', Er. simpl. rewrite Hs' in Hs.
    split; congruence. }
  now rewrite Hd.
Qed.

(** C2. For every payload that satisfies the schema (the required paths
    present and valid) and whose site name and rank no stored record has,
    POST answers 201 with a record that is the payload plus the generated
    [_id] and [createdAt]/[updatedAt]; a GET on the id that response
    carries answers 200 with that same record. *)
Theorem create_then_read (env env' : Env) (db : Store) (b : Body) :
  validateSync b = [] ->
  is_Some (b_advantages b) ->
  is_Some (b_payments b) ->
  unused db b ->
  (newObjectId env < ObjectId.bound)%N ->
  db !! newObjectId env = None ->
  fault env = None ->
  fault env' = None ->
  exists d,
    response (app env db (POST b)) = {| status := 201; body := JItem d |} /\
    bodyOf d = b /\
    _id d = newObjectId env /\
    createdAt d = now env /\
    updatedAt d = now env /\
    response (app env' (store (app env db (POST b)))
                (GET_id (ObjectId.toHexString (_id d))))
      = json (JItem d).
Proof.
  intros Hv Ha Hp Hu Hb Hfresh Hf Hf'.
  exists (construct env b).
  assert (Ht : truthy (b_siteName b) = true).
  { apply validateSync_nil in Hv as (Hs & _). exact Hs. }
  unfold app, Router.route, Router.post, Router.get_id, findById.
  rewrite Ht, (save_ok env db b Hv Hu Hfresh Hf). reply.
  rewrite (ObjectIdFacts.cast_toHexString _ Hb), Hf', lookup_insert_eq. reply.
  repeat split; try reflexivity.
  now apply bodyOf_construct.
Qed.

Lemma create_then_read_witness :
  exists d,
    response (app Sample.env1 ∅ (POST Sample.acme))
      = {| status := 201; body := JItem d |} /\
    bodyOf d = Sample.acme /\
    response (app Sample.env2 Sample.db1
                (GET_id (ObjectId.toHexString (_id d)))) = json (JItem d).
Proof.
  destruct (create_then_read Sample.env1 Sample.env2 ∅ Sample.acme)
    as (d & Hr & Hb & _ & _ & _ & Hg).
  - reflexivity.
  - eexists; reflexivity.
  - eexists; reflexivity.
  - intros k o Hk. rewrite lookup_empty in Hk. discriminate.
  - reflexivity.
  - apply lookup_empty.
  - reflexivity.
  - reflexivity.
  - exists d. repeat split; assumption.
Defined.

(** *** Partial update *)

Lemma follows_default {A} (sent : option A) (before : A) :
  follows sent before (default before sent).
Proof. destruct sent; reflexivity. Qed.

(** C4. For every stored record and every body, a PUT that succeeds stores
    and returns a record in which each path of the schema has the value the
    body supplied for it, or the value it had when the body omits it; the
    identifier and [createdAt] are kept, [updatedAt] is refreshed, and no
    other record is touched. *)
Theorem update_partial (env : Env) (db : Store) (id : string) (b : Body)
    (oid : N) (old : RankItem) :
  ObjectId.cast id = Some oid ->
  db !! oid = Some old ->
  status (response (app env db (PUT_id id b))) = 200 ->
  exists new,
    response (app env db (PUT_id id b)) = json (JItem new) /\
    store (app env db (PUT_id id b)) !! oid = Some new /\
    follows (b_siteName b) (siteName old) (siteName new) /\
    follows (b_logo b) (logo old) (logo new) /\
    follows (b_advantages b) (advantages old) (advantages new) /\
    follows (b_welcomeBonus b) (welcomeBonus old) (welcomeBonus new) /\
    follows (b_payments b) (payments old) (payments new) /\
    follows (b_promoCode b) (promoCode old) (promoCode new) /\
    follows (b_rank b) (rank old) (rank new) /\
    follows (Some <$> b_createAccountUrl b)
      (createAccountUrl old) (createAccountUrl new) /\
    follows (Some <$> b_downloadAppUrl b)
      (downloadAppUrl old) (downloadAppUrl new) /\
    _id new = _id old /\
    createdAt new = createdAt old /\
    updatedAt new = now env /\
    forall k, k <> oid -> store (app env db (PUT_id id b)) !! k = db !! k.
Proof.
  intros Hc Hold.
  unfold app, Router.route, Router.put_id, findByIdAndUpdate.
  rewrite Hc.
  destruct (validateUpdate b); [|reply; discriminate].
  destruct (fault env); [reply; discriminate|].
  rewrite Hold.
  destruct (duplicateIndex oid (applyUpdate env old b) db);
    [reply; discriminate|].
  reply. intros _. exists (applyUpdate env old b).
  split; [reflexivity|]. split; [apply lookup_insert_eq|].
  unfold applyUpdate; cbn [siteName logo advantages welcomeBonus payments
    promoCode rank createAccountUrl downloadAppUrl _id createdAt updatedAt].
  repeat (split; [first [apply follows_default | reflexivity
                        | destruct (b_createAccountUrl b); reflexivity
                        | destruct (b_downloadAppUrl b); reflexivity]|]).
  intros k Hk. now apply lookup_insert_ne.
Qed.

Lemma update_partial_witness :
  exists new,
    response (app Sample.env2 Sample.db1 (PUT_id Sample.id1 Sample.rank2))
      = json (JItem new) /\
    rank new = 2 /\
    siteName new = "Acme Bet" /\
    advantages new = ["Fast payouts"].
Proof.
  assert (Hc : ObjectId.cast Sample.id1 = Some 1%N) by (vm_compute; reflexivity).
  assert (Hd : Sample.db1 !! 1%N = Some (construct Sample.env1 Sample.acme))
    by (vm_compute; reflexivity).
  assert (Hs : status (response (app Sample.env2 Sample.db1
                                   (PUT_id Sample.id1 Sample.rank2))) = 200)
    by (vm_compute; reflexivity).
  destruct (update_partial Sample.env2 Sample.db1 Sample.id1 Sample.rank2 1%N
              (construct Sample.env1 Sample.acme) Hc Hd Hs)
    as (new & Hr & _ & Hn & _ & Ha & _ & _ & _ & Hk & _).
  exists new. repeat split; assumption.
Defined.

(** *** Validation on update *)

Lemma required_default (x : string) (v : option string) :
  checkRequiredString (Some x) = true ->
  v = None \/ checkRequiredString v = true ->
  checkRequiredString (Some (default x v)) = true.
Proof.
  intros Hx [->|Hv]; [exact Hx|].
  destruct v as [s|]; [exact Hv|discriminate].
Qed.

Lemma conforms_construct (env : Env) (b : Body) :
  validateSync b = [] -> conforms (construct env b).
Proof.
  intros Hv. unfold conforms. apply validateSync_nil.
  apply validateSync_nil in Hv as (Hs & Hl & Hw & Hc & Hr).
  apply checkRequiredString_true in Hs as (s & Hs & Hs').
  apply checkRequiredString_true in Hl as (l & Hl & Hl').
  apply checkRequiredString_true in Hw as (w & Hw & Hw').
  apply checkRequiredString_true in Hc as (c & Hc & Hc').
  unfold construct, bodyOf.
  cbn [b_siteName b_logo b_welcomeBonus b_promoCode b_rank
       siteName logo welcomeBonus promoCode rank].
  rewrite Hs, Hl, Hw, Hc. cbn [default from_option id].
  repeat split; try (apply checkRequiredString_true; eauto).
Qed.

(** A body that passes the update validators, merged onto a record that
    satisfies the schema, gives a record that satisfies the schema. *)
Lemma conforms_applyUpdate (env : Env) (old : RankItem) (b : Body) :
  conforms old -> validateUpdate b = [] -> conforms (applyUpdate env old b).
Proof.
  unfold conforms, validateUpdate.
  rewrite !validateSync_nil, !app_nil, !updated_nil.
  unfold applyUpdate, bodyOf.
  cbn [b_siteName b_logo b_welcomeBonus b_promoCode b_rank
       siteName logo welcomeBonus promoCode rank].
  intros (Hs & Hl & Hw & Hc & _) (Us & Ul & _ & Uw & _ & Uc & _).
  repeat split; try (apply required_default; assumption).
Qed.

(** Every record of a collection the API produced passes the validators of
    the schema. *)
Lemma reachable_conforms (db : Store) :
  Reachable db -> forall k d, db !! k = Some d -> conforms d.
Proof.
  induction 1 as [|env req db Hreach IH]; intros k d Hk.
  - rewrite lookup_empty in Hk. discriminate.
  - revert Hk. unfold app, Router.route.
    destruct req as [|b|id|id b|id].
    + unfold Router.get_all. destruct (find_sort_rank env db); reply; apply IH.
    + unfold Router.post, save.
      destruct (negb (truthy (b_siteName b))); [reply; apply IH|].
      destruct (validateSync b) eqn:Hv; [|reply; apply IH].
      destruct (fault env); [reply; apply IH|].
      destruct (db !! _id (construct env b)); [reply; apply IH|].
      destruct (duplicateIndex _ _ db); [reply; apply IH|].
      reply. intros Hk. apply lookup_insert_Some in Hk as [[_ <-]|[_ Hk]].
      * now apply conforms_construct.
      * now apply (IH k).
    + unfold Router.get_id. destruct (findById env db id) as [[r|]|]; reply; apply IH.
    + unfold Router.put_id, findByIdAndUpdate.
      destruct (ObjectId.cast id) as [oid|]; [|reply; apply IH].
      destruct (validateUpdate b) eqn:Hv; [|reply; apply IH].
      destruct (fault env); [reply; apply IH|].
      destruct (db !! oid) as [old|] eqn:Hold; [|reply; apply IH].
      destruct (duplicateIndex _ _ db); [reply; apply IH|].
      reply. intros Hk. apply lookup_insert_Some in Hk as [[_ <-]|[_ Hk]].
      * apply conforms_applyUpdate; [now apply (IH oid)|exact Hv].
      * now apply (IH k).
    + unfold Router.delete_id, findByIdAndDelete.
      destruct (ObjectId.cast id) as [oid|]; [|reply; apply IH].
      destruct (fault env); [reply; apply IH|].
      destruct (db !! oid) as [old|] eqn:Hold; [|reply; apply IH].
      reply. intros Hk. apply lookup_delete_Some in Hk as [_ Hk].
      now apply (IH k).
Qed.




(** *** What error responses say *)

(** C6 (as stated) fails on the create route: the 500 it answers quotes the
    message of the error it caught, here the driver's connection error and
    the store's duplicate-key error, neither of which is a message of the
    source. *)
Lemma create_quotes_the_error :
  response (app Sample.env_down ∅ (POST Sample.acme))
    = {| status := 500; body := JMessage (message Sample.refused) |} /\
  message Sample.refused = "connect ECONNREFUSED 127.0.0.1:27017" /\
  ~ In (message Sample.refused) fixedMessages /\
  response (app Sample.env2 Sample.db1 (POST Sample.acme))
    = {| status := 500;
         body := JMessage (message (DuplicateKeyError "siteName_1")) |} /\
  ~ In (message (DuplicateKeyError "siteName_1")) fixedMessages.
Proof.
  split; [vm_compute; reflexivity|].
  split; [reflexivity|].
  split; [vm_compute; intuition discriminate|].
  split; [vm_compute; reflexivity|].
  vm_compute; intuition discriminate.
Qed.

(** C6 (as the code has it). Every error response of the list, read, update
    and delete routes is one of two fixed responses, the 404 of the route or
    the 500 of the error handler, whatever the error was.  An error
    response of the create route is the fixed 400, or a 500 whose message
    is the message of the error [save] threw (the fixed fallback when that
    message is empty). *)
Theorem error_bodies (env : Env) (db : Store) (req : Request) :
  400 <= status (response (app env db req)) ->
  match req with
  | POST b =>
      response (app env db req)
        = {| status := 400; body := JMessage "Le nom du site est requis" |} \/
      exists e,
        save env db b = Throw e /\
        response (app env db req)
          = {| status := 500;
               body := JMessage (or_else (message e)
                                   "Erreur lors de la création de l'item") |}
  | _ =>
      response (app env db req) = notFound \/
      response (app env db req) = serverError
  end.
Proof.
  unfold app, Router.route. destruct req as [|b|id|id b|id].
  - unfold Router.get_all.
    destruct (find_sort_rank env db); reply; [lia|auto].
  - unfold Router.post.
    destruct (negb (truthy (b_siteName b))); [reply; auto|].
    destruct (save env db b) as [[db' d]|e]; reply; [lia|].
    intros _. right. exists e. auto.
  - unfold Router.get_id.
    destruct (findById env db id) as [[d|]|e]; reply; [lia|auto|auto].
  - unfold Router.put_id.
    destruct (findByIdAndUpdate env db id b) as [[db' [d|]]|e]; reply;
      [lia|auto|auto].
  - unfold Router.delete_id.
    destruct (findByIdAndDelete env db id) as [[db' [d|]]|e]; reply;
      [lia|auto|auto].
Qed.

Lemma error_bodies_witness :
  response (app Sample.env_down Sample.db1 (GET_id Sample.id1)) = serverError /\
  response (app Sample.env2 Sample.db1 (GET_id Sample.id2)) = notFound.
Proof.
  split.
  - destruct (error_bodies Sample.env_down Sample.db1 (GET_id Sample.id1))
      as [H|H].
    + vm_compute. discriminate.
    + exfalso. revert H. vm_compute. discriminate.
    + exact H.
  - destruct (error_bodies Sample.env2 Sample.db1 (GET_id Sample.id2))
      as [H|H].
    + vm_compute. discriminate.
    + exact H.
    + exfalso. revert H. vm_compute. discriminate.
Defined.

(** *** Empty arrays *)

(** C8 fails on the code: [required: true] on an array path is satisfied by
    the empty array.  A POST whose [advantages] and [payments] are empty is
    answered 201 and stored, and a PUT that empties both arrays of a stored
    record is answered 200 and stored. *)
Theorem empty_arrays_accepted :
  validateSync Sample.bare = [] /\
  (exists d,
     response (app Sample.env1 ∅ (POST Sample.bare))
       = {| status := 201; body := JItem d |} /\
     store (app Sample.env1 ∅ (POST Sample.bare)) !! 1%N = Some d /\
     advantages d = [] /\ payments d = []) /\
  (exists d,
     response (app Sample.env2 Sample.db1 (PUT_id Sample.id1 Sample.emptied))
       = json (JItem d) /\
     store (app Sample.env2 Sample.db1 (PUT_id Sample.id1 Sample.emptied)) !! 1%N
       = Some d /\
     advantages d = [] /\ payments d = []).
Proof.
  split; [reflexivity|]. split.
  - exists (construct Sample.env1 Sample.bare).
    vm_compute. repeat split; reflexivity.
  - exists (applyUpdate Sample.env2 (construct Sample.env1 Sample.acme)
              Sample.emptied).
    vm_compute. repeat split; reflexivity.
Qed.

(** *** The end-to-end scenario *)

(** POST the sample payload, list, move it to rank 2, delete it, read it. *)
Example scenario :
  let posted := app Sample.env1 ∅ (POST Sample.acme) in
  let listed := app Sample.env2 (store posted) GET_all in
  let moved := app Sample.env2 (store posted) (PUT_id Sample.id1 Sample.rank2) in
  let deleted := app Sample.env2 (store moved) (DELETE_id Sample.id1) in
  let read := app Sample.env2 (store deleted) (GET_id Sample.id1) in
  response posted
    = {| status := 201; body := JItem (construct Sample.env1 Sample.acme) |} /\
  response listed = json (JItems [construct Sample.env1 Sample.acme]) /\
  response moved
    = json (JItem (applyUpdate Sample.env2
                     (construct Sample.env1 Sample.acme) Sample.rank2)) /\
  response deleted = json (JMessage "Rank item deleted successfully") /\
  response read = notFound /\
  store deleted = ∅.
Proof. vm_compute. repeat split; reflexivity. Qed.

(** ** Further properties of the routes *)

(** *** What a successful write did *)

Lemma post_created (env : Env) (db : Store) (b : Body) :
  status (response (app env db (POST b))) = 201 ->
  truthy (b_siteName b) = true /\
  validateSync b = [] /\
  fault env = None /\
  db !! newObjectId env = None /\
  duplicateIndex (newObjectId env) (construct env b) db = None /\
  app env db (POST b)
    = mkReply (<[newObjectId env := construct env b]> db)
        {| status := 201; body := JItem (construct env b) |}
        [LogReceived b].
Proof.
  unfold app, Router.route, Router.post, save.
  destruct (truthy (b_siteName b)); [|reply; discriminate].
  destruct (validateSync b); [|reply; discriminate].
  destruct (fault env); [reply; discriminate|].
  reply.
  destruct (db !! newObjectId env); [reply; discriminate|].
  destruct (duplicateIndex _ _ db); [reply; discriminate|].
  reply. intros _. repeat split; reflexivity.
Qed.

Lemma put_updated (env : Env) (db : Store) (id : string) (b : Body) :
  status (response (app env db (PUT_id id b))) = 200 ->
  exists oid old,
    ObjectId.cast id = Some oid /\
    validateUpdate b = [] /\
    fault env = None /\
    db !! oid = Some old /\
    duplicateIndex oid (applyUpdate env old b) db = None /\
    app env db (PUT_id id b)
      = mkReply (<[oid := applyUpdate env old b]> db)
          (json (JItem (applyUpdate env old b))) [].
Proof.
  unfold app, Router.route, Router.put_id, findByIdAndUpdate.
  destruct (ObjectId.cast id) as [oid|] eqn:Hc; [|reply; discriminate].
  destruct (validateUpdate b) eqn:Hv; [|reply; discriminate].
  destruct (fault env) eqn:Hf; [reply; discriminate|].
  destruct (db !! oid) as [old|] eqn:Hold; [|reply; discriminate].
  destruct (duplicateIndex _ _ db) eqn:Hd; [reply; discriminate|].
  reply. intros _. exists oid, old. repeat split; assumption || reflexivity.
Qed.

Lemma delete_deleted (env : Env) (db : Store) (id : string) :
  status (response (app env db (DELETE_id id))) = 200 ->
  exists oid old,
    ObjectId.cast id = Some oid /\
    fault env = None /\
    db !! oid = Some old /\
    app env db (DELETE_id id)
      = mkReply (delete oid db)
          (json (JMessage "Rank item deleted successfully")) [].
Proof.
  unfold app, Router.route, Router.delete_id, findByIdAndDelete.
  destruct (ObjectId.cast id) as [oid|] eqn:Hc; [|reply; discriminate].
  destruct (fault env) eqn:Hf; [reply; discriminate|].
  destruct (db !! oid) as [old|] eqn:Hold; [|reply; discriminate].
  reply. intros _. exists oid, old. repeat split; assumption || reflexivity.
Qed.

(** The collection after a request: as before, or changed by the one
    successful write. *)
Lemma store_after (env : Env) (db : Store) (req : Request) :
  store (app env db req) = db \/
  (exists b, req = POST b /\
     status (response (app env db req)) = 201) \/
  (exists id b, req = PUT_id id b /\
     status (response (app env db req)) = 200) \/
  (exists id, req = DELETE_id id /\
     status (response (app env db req)) = 200).
Proof.
  unfold app, Router.route. destruct req as [|b|id|id b|id].
  - unfold Router.get_all. destruct (find_sort_rank env db); reply; auto.
  - unfold Router.post.
    destruct (negb (truthy (b_siteName b))); [reply; auto|].
    destruct (save env db b) as [[db' d]|e]; reply; [|auto].
    right. left. exists b. auto.
  - unfold Router.get_id.
    destruct (findById env db id) as [[d|]|e]; reply; auto.
  - unfold Router.put_id, findByIdAndUpdate.
    destruct (ObjectId.cast id) as [oid|]; [|reply; auto].
    destruct (validateUpdate b); [|reply; auto].
    destruct (fault env); [reply; auto|].
    destruct (db !! oid) as [old|]; [|reply; auto].
    destruct (duplicateIndex _ _ db); reply; [auto|].
    right. right. left. exists id, b. auto.
  - unfold Router.delete_id, findByIdAndDelete.
    destruct (ObjectId.cast id) as [oid|]; [|reply; auto].
    destruct (fault env); [reply; auto|].
    destruct (db !! oid) as [old|]; [|reply; auto].
    reply. right. right. right. exists id. auto.
Qed.

(** X1. A request answered with an error status, and a GET whatever its
    answer, leaves the collection exactly as it was. *)
Theorem failures_and_reads_keep_store (env : Env) (db : Store) (req : Request) :
  400 <= status (response (app env db req)) \/ reads req = true ->
  store (app env db req) = db.
Proof.
  intros H.
  destruct (store_after env db req)
    as [Hs|[(b & -> & Hs)|[(id & b & -> & Hs)|(id & -> & Hs)]]];
    [exact Hs| | |];
    (destruct H as [H|H]; [rewrite Hs in H; lia|discriminate H]).
Qed.

Lemma failures_and_reads_keep_store_witness :
  store (app Sample.env2 Sample.db1 (POST Sample.acme)) = Sample.db1 /\
  store (app Sample.env2 Sample.db1 (GET_id Sample.id1)) = Sample.db1.
Proof.
  split.
  - apply (failures_and_reads_keep_store Sample.env2 Sample.db1 (POST Sample.acme)).
    left. vm_compute. discriminate.
  - apply (failures_and_reads_keep_store Sample.env2 Sample.db1 (GET_id Sample.id1)).
    right. reflexivity.
Defined.

(** *** Invariants of the collection *)

(** A property of collections that holds of the empty one and is kept by
    each successful write holds of every collection the API produces. *)
Lemma reachable_invariant (I : Store -> Prop) :
  I ∅ ->
  (forall env db b,
     I db -> db !! newObjectId env = None -> validateSync b = [] ->
     duplicateIndex (newObjectId env) (construct env b) db = None ->
     I (<[newObjectId env := construct env b]> db)) ->
  (forall env db oid old b,
     I db -> db !! oid = Some old -> validateUpdate b = [] ->
     duplicateIndex oid (applyUpdate env old b) db = None ->
     I (<[oid := applyUpdate env old b]> db)) ->
  (forall db oid old, I db -> db !! oid = Some old -> I (delete oid db)) ->
  forall db, Reachable db -> I db.
Proof.
  intros Hempty Hpost Hput Hdel db Hreach.
  induction Hreach as [|env req db Hreach IH]; [exact Hempty|].
  destruct (store_after env db req)
    as [Hs|[(b & -> & Hs)|[(id & b & -> & Hs)|(id & -> & Hs)]]].
  - now rewrite Hs.
  - apply post_created in Hs as (_ & Hv & _ & Hfresh & Hd & ->).
    now apply Hpost.
  - apply put_updated in Hs as (oid & old & _ & Hv & _ & Hold & Hd & ->).
    now apply Hput.
  - apply delete_deleted in Hs as (oid & old & _ & _ & Hold & ->).
    now apply (Hdel db oid old).
Qed.

Lemma keyed_reachable (db : Store) : Reachable db -> keyed db.
Proof.
  apply reachable_invariant; unfold keyed.
  - intros k d Hk. rewrite lookup_empty in Hk. discriminate.
  - intros env db0 b IH _ _ _ k d Hk.
    apply lookup_insert_Some in Hk as [[<- <-]|[_ Hk]]; [reflexivity|].
    now apply IH.
  - intros env db0 oid old b IH Hold _ _ k d Hk.
    apply lookup_insert_Some in Hk as [[<- <-]|[_ Hk]]; [|now apply IH].
    cbn [applyUpdate _id]. now apply IH.
  - intros db0 oid old IH _ k d Hk.
    apply lookup_delete_Some in Hk as [_ Hk]. now apply IH.
Qed.

Lemma reachable_db2 : Reachable Sample.db2.
Proof.
  exact (reach_step Sample.env2 (POST Sample.bravo) _
           (reach_step Sample.env1 (POST Sample.acme) ∅ reach_empty)).
Qed.

Lemma unique_insert (db : Store) (k : N) (d : RankItem) :
  unique db ->
  duplicateIndex k d db = None ->
  unique (<[k := d]> db).
Proof.
  intros IH Hd k1 k2 d1 d2 Hne H1 H2.
  rewrite duplicateIndex_None in Hd.
  apply lookup_insert_Some in H1 as [[<- <-]|[Hk1 H1]];
    apply lookup_insert_Some in H2 as [[<- <-]|[Hk2 H2]].
  - congruence.
  - destruct (Hd k2 d2 (not_eq_sym Hk2) H2) as [Hs Hr]. split; congruence.
  - destruct (Hd k1 d1 (not_eq_sym Hk1) H1) as [Hs Hr]. split; congruence.
  - now apply (IH k1 k2).
Qed.

Lemma unique_reachable (db : Store) : Reachable db -> unique db.
Proof.
  apply reachable_invariant.
  - intros k1 k2 d1 d2 _ H1. rewrite lookup_empty in H1. discriminate.
  - intros env db0 b IH _ _ Hd. now apply unique_insert.
  - intros env db0 oid old b IH _ _ Hd. now apply unique_insert.
  - intros db0 oid old IH _ k1 k2 d1 d2 Hne H1 H2.
    apply lookup_delete_Some in H1 as [_ H1].
    apply lookup_delete_Some in H2 as [_ H2].
    now apply (IH k1 k2).
Qed.

(** X3. In every collection the API produces, no two records have the same
    site name and no two have the same rank. *)
Theorem reachable_unique (db : Store) (k1 k2 : N) (d1 d2 : RankItem) :
  Reachable db ->
  k1 <> k2 -> db !! k1 = Some d1 -> db !! k2 = Some d2 ->
  siteName d1 <> siteName d2 /\ rank d1 <> rank d2.
Proof. intros Hreach. now apply unique_reachable. Qed.

Lemma reachable_unique_witness :
  Sample.db2 !! 1%N = Some (construct Sample.env1 Sample.acme) /\
  Sample.db2 !! 2%N = Some (construct Sample.env2 Sample.bravo) /\
  siteName (construct Sample.env1 Sample.acme)
    <> siteName (construct Sample.env2 Sample.bravo) /\
  rank (construct Sample.env1 Sample.acme)
    <> rank (construct Sample.env2 Sample.bravo).
Proof.
  assert (H1 : Sample.db2 !! 1%N = Some (construct Sample.env1 Sample.acme))
    by (vm_compute; reflexivity).
  assert (H2 : Sample.db2 !! 2%N = Some (construct Sample.env2 Sample.bravo))
    by (vm_compute; reflexivity).
  assert (Hne : 1%N <> 2%N) by discriminate.
  destruct (reachable_unique Sample.db2 1%N 2%N _ _ reachable_db2 Hne H1 H2)
    as [Hs Hr].
  repeat split; assumption.
Defined.

(** *** Creation: refusals *)

Lemma documents_length (db : Store) : length (documents db) = size db.
Proof. unfold documents. rewrite length_map. apply length_map_to_list. Qed.

Lemma post_thrown (env : Env) (db : Store) (b : Body) (e : Error) :
  truthy (b_siteName b) = true ->
  save env db b = Throw e ->
  app env db (POST b)
    = mkReply db (createError e) [LogReceived b; LogCreateError e].
Proof.
  intros Ht Hs. unfold app, Router.route, Router.post.
  now rewrite Ht, Hs.
Qed.

(** X4. A POST whose body is valid but whose site name, or whose rank, a
    stored record already has is refused by the store: it is answered 500
    with the message of the error the store raised, the error is logged,
    and nothing is stored. *)
Theorem create_duplicate (env : Env) (db : Store) (b : Body) :
  validateSync b = [] ->
  fault env = None ->
  db !! newObjectId env = None ->
  siteName_taken db (b_siteName b) \/ rank_taken db (b_rank b) ->
  exists e,
    save env db b = Throw e /\
    app env db (POST b)
      = mkReply db (createError e) [LogReceived b; LogCreateError e] /\
    status (response (app env db (POST b))) = 500.
Proof.
  intros Hv Hf Hfresh Htaken.
  assert (Ht : truthy (b_siteName b) = true).
  { apply validateSync_nil in Hv as (Hs & _). exact Hs. }
  assert (Hd : duplicateIndex (newObjectId env) (construct env b) db <> None).
  { intros Hn. rewrite duplicateIndex_None in Hn.
    pose proof Hv as Hv'.
    apply validateSync_nil in Hv' as (Hs & _ & _ & _ & Hr).
    apply checkRequiredString_true in Hs as (s & Hs & _).
    destruct (b_rank b) as [r|] eqn:Er; [|discriminate].
    destruct Htaken as [(k & o & Hk & Ho)|(k & o & Hk & Ho)];
      (assert (Hne : k <> newObjectId env) by congruence);
      destruct (Hn k o Hne Hk) as [Hns Hnr];
      cbn [construct siteName rank] in Hns, Hnr;
      rewrite ?Hs, ?Er in *; cbn in Hns, Hnr; congruence. }
  assert (Hsave : exists e, save env db b = Throw e).
  { unfold save. rewrite Hv, Hf. cbn [construct _id]. rewrite Hfresh.
    destruct (duplicateIndex (newObjectId env) _ db) as [index|];
      [eauto|congruence]. }
  destruct Hsave as [e Hsave]. exists e.
  split; [exact Hsave|].
  rewrite (post_thrown env db b e Ht Hsave). split; reflexivity.
Qed.

Lemma create_duplicate_witness :
  exists e,
    app Sample.env2 Sample.db1 (POST Sample.acme)
      = mkReply Sample.db1 (createError e)
          [LogReceived Sample.acme; LogCreateError e].
Proof.
  assert (Ht : siteName_taken Sample.db1 (b_siteName Sample.acme)).
  { exists 1%N, (construct Sample.env1 Sample.acme).
    split; vm_compute; reflexivity. }
  assert (Hfresh : Sample.db1 !! newObjectId Sample.env2 = None)
    by (vm_compute; reflexivity).
  destruct (create_duplicate Sample.env2 Sample.db1 Sample.acme
              eq_refl eq_refl Hfresh (or_introl Ht)) as (e & _ & Happ & _).
  exists e. exact Happ.
Defined.

Lemma post_400_iff (env : Env) (db : Store) (b : Body) :
  status (response (app env db (POST b))) = 400 <->
  truthy (b_siteName b) = false.
Proof.
  unfold app, Router.route, Router.post.
  destruct (truthy (b_siteName b)); cbn [negb].
  - destruct (save env db b) as [[db' d]|e]; reply; split; discriminate.
  - reply. split; reflexivity.
Qed.

(** X5. A POST whose body has no site name, or the empty string for one,
    is answered 400, whatever else the body and the collection hold; a
    POST whose site name is a non-empty string is never answered 400. *)
Theorem create_400_on_siteName (env : Env) (db : Store) (b : Body) :
  (b_siteName b = None \/ b_siteName b = Some "" ->
     response (app env db (POST b))
       = {| status := 400; body := JMessage "Le nom du site est requis" |} /\
     store (app env db (POST b)) = db) /\
  (forall s, b_siteName b = Some s -> s <> "" ->
     status (response (app env db (POST b))) <> 400).
Proof.
  split.
  - intros H.
    assert (Ht : truthy (b_siteName b) = false)
      by (destruct H as [-> | ->]; reflexivity).
    unfold app, Router.route, Router.post. rewrite Ht. reply.
    split; reflexivity.
  - intros s Hs Hne. rewrite post_400_iff, Hs. unfold truthy.
    apply String.eqb_neq in Hne. now rewrite Hne.
Qed.

Lemma create_400_on_siteName_witness :
  response (app Sample.env2 Sample.db1 (POST Sample.no_logo))
    = {| status := 400; body := JMessage "Le nom du site est requis" |} /\
  status (response (app Sample.env2 Sample.db1 (POST Sample.acme))) <> 400.
Proof.
  destruct (create_400_on_siteName Sample.env2 Sample.db1 Sample.no_logo)
    as [Habsent _].
  destruct (create_400_on_siteName Sample.env2 Sample.db1 Sample.acme)
    as [_ Hgiven].
  destruct Habsent as [Hr _]; [left; reflexivity|].
  split; [exact Hr|].
  apply (Hgiven "Acme Bet"); [reflexivity|discriminate].
Defined.

(** X6. A POST whose body has a site name but fails another validator of
    the schema is answered 500, not 400: the validation error is caught by
    the route, its message is the body of the response, the body of the
    request and the error are logged, and nothing is stored. *)
Theorem create_invalid_is_500 (env : Env) (db : Store) (b : Body) :
  truthy (b_siteName b) = true ->
  validateSync b <> [] ->
  exists e,
    save env db b = Throw e /\
    name e = "ValidationError" /\
    app env db (POST b)
      = mkReply db (createError e) [LogReceived b; LogCreateError e] /\
    status (response (app env db (POST b))) = 500.
Proof.
  intros Ht Hv.
  assert (Hsave : save env db b
                  = Throw (ValidationError "RankItem validation failed"
                             (validateSync b))).
  { unfold save. destruct (validateSync b) as [|p ps]; [congruence|reflexivity]. }
  eexists. split; [exact Hsave|]. split; [reflexivity|].
  rewrite (post_thrown env db b _ Ht Hsave). split; reflexivity.
Qed.

Lemma create_invalid_is_500_witness :
  status (response (app Sample.env2 Sample.db1
            (POST (mkBody (Some "Acme Bet") None None None None None None None None))))
  = 500.
Proof.
  destruct (create_invalid_is_500 Sample.env2 Sample.db1
              (mkBody (Some "Acme Bet") None None None None None None None None))
    as (e & _ & _ & _ & H500); [reflexivity|discriminate|exact H500].
Defined.

(** *** Successful writes change one record *)

(** X7. A POST answered 201 stored exactly one new record, under an id no
    record had: the returned record satisfies the schema, every other
    record is as it was, and the collection has one record more. *)
Theorem create_adds_one (env : Env) (db : Store) (b : Body) :
  status (response (app env db (POST b))) = 201 ->
  exists d,
    response (app env db (POST b)) = {| status := 201; body := JItem d |} /\
    conforms d /\
    db !! _id d = None /\
    store (app env db (POST b)) !! _id d = Some d /\
    (forall k, k <> _id d -> store (app env db (POST b)) !! k = db !! k) /\
    length (documents (store (app env db (POST b)))) = S (length (documents db)).
Proof.
  intros H. apply post_created in H as (_ & Hv & _ & Hfresh & _ & ->).
  exists (construct env b). reply.
  split; [reflexivity|]. split; [now apply conforms_construct|].
  split; [exact Hfresh|]. split; [apply lookup_insert_eq|].
  split; [intros k Hk; now apply lookup_insert_ne|].
  rewrite !documents_length. now apply map_size_insert_None.
Qed.

Lemma create_adds_one_witness :
  exists d,
    response (app Sample.env2 Sample.db1 (POST Sample.bravo))
      = {| status := 201; body := JItem d |} /\
    length (documents Sample.db2) = S (length (documents Sample.db1)).
Proof.
  destruct (create_adds_one Sample.env2 Sample.db1 Sample.bravo)
    as (d & Hr & _ & _ & _ & _ & Hl); [vm_compute; reflexivity|].
  exists d. split; [exact Hr|exact Hl].
Defined.

(** X8. A DELETE answered 200 removed exactly the record its id designates:
    the id was well formed and held a record, it holds none afterwards,
    every other record is as it was, and the collection has one record
    less. *)
Theorem delete_removes_one (env : Env) (db : Store) (id : string) :
  status (response (app env db (DELETE_id id))) = 200 ->
  exists oid d,
    ObjectId.cast id = Some oid /\
    db !! oid = Some d /\
    store (app env db (DELETE_id id)) !! oid = None /\
    (forall k, k <> oid -> store (app env db (DELETE_id id)) !! k = db !! k) /\
    S (length (documents (store (app env db (DELETE_id id)))))
      = length (documents db).
Proof.
  intros H. apply delete_deleted in H as (oid & d & Hc & _ & Hd & ->).
  exists oid, d. reply.
  split; [exact Hc|]. split; [exact Hd|].
  split; [apply lookup_delete_eq|].
  split; [intros k Hk; now apply lookup_delete_ne|].
  rewrite !documents_length.
  pose proof (map_size_delete_Some oid db (mk_is_Some _ _ Hd)).
  assert (size db <> 0%nat).
  { intros E. apply map_size_empty_iff in E. subst db.
    rewrite lookup_empty in Hd. discriminate. }
  lia.
Qed.

Lemma delete_removes_one_witness :
  exists oid d,
    ObjectId.cast Sample.id1 = Some oid /\
    Sample.db2 !! oid = Some d /\
    S (length (documents (store (app Sample.env2 Sample.db2
                                   (DELETE_id Sample.id1)))))
      = length (documents Sample.db2).
Proof.
  destruct (delete_removes_one Sample.env2 Sample.db2 Sample.id1)
    as (oid & d & Hc & Hd & _ & _ & Hl); [vm_compute; reflexivity|].
  exists oid, d. repeat split; assumption.
Defined.

(** *** Saving a record back unchanged *)

Lemma validateUpdate_bodyOf (d : RankItem) :
  conforms d -> validateUpdate (bodyOf d) = [].
Proof.
  unfold conforms, validateUpdate. rewrite validateSync_nil.
  intros (Hs & Hl & Hw & Hc & _).
  unfold bodyOf in *.
  cbn [b_siteName b_logo b_advantages b_welcomeBonus b_payments b_promoCode
       b_rank updated checkRequiredArray checkRequiredNumber failed] in *.
  rewrite Hs, Hl, Hw, Hc. reflexivity.
Qed.

Lemma put_own_values (env : Env) (db : Store) (id : string)
    (oid : N) (old : RankItem) :
  Reachable db ->
  ObjectId.cast id = Some oid ->
  db !! oid = Some old ->
  fault env = None ->
  exists new,
    app env db (PUT_id id (bodyOf old))
      = mkReply (<[oid := new]> db) (json (JItem new)) [] /\
    bodyOf new = bodyOf old /\
    _id new = _id old /\
    createdAt new = createdAt old /\
    updatedAt new = now env.
Proof.
  intros Hreach Hc Hold Hf.
  exists (applyUpdate env old (bodyOf old)).
  assert (Hv : validateUpdate (bodyOf old) = []).
  { apply validateUpdate_bodyOf. now apply (reachable_conforms db Hreach oid). }
  assert (Hd : duplicateIndex oid (applyUpdate env old (bodyOf old)) db = None).
  { apply duplicateIndex_None. intros k o Hk Ho.
    exact (unique_reachable db Hreach k oid o old Hk Ho Hold). }
  unfold app, Router.route, Router.put_id, findByIdAndUpdate.
  rewrite Hc, Hv, Hf, Hold, Hd. reply.
  split; [reflexivity|].
  split; [|repeat split; reflexivity].
  unfold applyUpdate, bodyOf.
  cbn [b_siteName b_logo b_advantages b_welcomeBonus b_payments b_promoCode
       b_rank b_createAccountUrl b_downloadAppUrl siteName logo advantages
       welcomeBonus payments promoCode rank createAccountUrl downloadAppUrl
       default from_option].
  destruct (createAccountUrl old), (downloadAppUrl old); reflexivity.
Qed.

(** X9. In a collection the API produced, a PUT that sends a stored record
    its own values back is accepted: the record's own site name and rank
    do not count as duplicates, and the stored record is the old one with
    [updatedAt] refreshed. *)
Theorem update_with_own_values (env : Env) (db : Store) (id : string)
    (oid : N) (old : RankItem) :
  Reachable db ->
  ObjectId.cast id = Some oid ->
  db !! oid = Some old ->
  fault env = None ->
  exists new,
    app env db (PUT_id id (bodyOf old))
      = mkReply (<[oid := new]> db) (json (JItem new)) [] /\
    bodyOf new = bodyOf old /\
    _id new = _id old /\
    createdAt new = createdAt old /\
    updatedAt new = now env.
Proof. apply put_own_values. Qed.

Lemma update_with_own_values_witness :
  exists new,
    app Sample.env1 Sample.db2
      (PUT_id Sample.id2 (bodyOf (construct Sample.env2 Sample.bravo)))
      = mkReply (<[2%N := new]> Sample.db2) (json (JItem new)) [] /\
    updatedAt new = 1000.
Proof.
  assert (Hc : ObjectId.cast Sample.id2 = Some 2%N) by (vm_compute; reflexivity).
  assert (H2 : Sample.db2 !! 2%N = Some (construct Sample.env2 Sample.bravo))
    by (vm_compute; reflexivity).
  destruct (update_with_own_values Sample.env1 Sample.db2 Sample.id2 2%N
              (construct Sample.env2 Sample.bravo) reachable_db2 Hc H2 eq_refl)
    as (new & Hr & _ & _ & _ & Hu).
  exists new. split; assumption.
Defined.

(** *** Listing a collection the API produced *)

Lemma strictly_sorted (l : list RankItem) :
  StronglySorted rank_le l -> NoDup (map rank l) -> StronglySorted rank_lt l.
Proof.
  induction 1 as [|x l Hs IH Hx]; intros Hnd; [constructor|].
  simpl in Hnd. apply NoDup_cons in Hnd as [Hnin Hnd].
  constructor; [now apply IH|].
  rewrite Forall_forall in Hx |- *. intros y Hy.
  specialize (Hx y Hy). unfold rank_le, rank_lt in *.
  assert (rank x <> rank y).
  { intros E. apply Hnin. rewrite E. now apply list_elem_of_fmap_2. }
  lia.
Qed.

Lemma documents_distinct {B} (db : Store) (f : RankItem -> B) :
  (forall k1 k2 d1 d2, k1 <> k2 -> db !! k1 = Some d1 -> db !! k2 = Some d2 ->
     f d1 <> f d2) ->
  NoDup (map f (documents db)).
Proof.
  intros Hinj. unfold documents.
  change (NoDup (f <$> (snd <$> map_to_list db))).
  rewrite <- list_fmap_compose.
  apply NoDup_fmap_2_strong; [|apply NoDup_map_to_list].
  intros [k1 d1] [k2 d2] H1 H2 E. simpl in E.
  apply elem_of_map_to_list in H1. apply elem_of_map_to_list in H2.
  destruct (decide (k1 = k2)) as [->|Hne]; [congruence|].
  exfalso. exact (Hinj k1 k2 d1 d2 Hne H1 H2 E).
Qed.

(** X10. On a collection the API produced, GET / lists the records in
    strictly increasing order of [rank], and no site name appears twice. *)
Theorem list_strictly_increasing (env : Env) (db : Store) :
  Reachable db ->
  fault env = None ->
  exists l,
    response (app env db GET_all) = json (JItems l) /\
    StronglySorted rank_lt l /\
    NoDup (map siteName l).
Proof.
  intros Hreach Hf.
  pose proof (unique_reachable db Hreach) as Hu.
  exists (sortByRank (documents db)).
  unfold app, Router.route, Router.get_all, find_sort_rank. rewrite Hf. reply.
  split; [reflexivity|]. split.
  - apply strictly_sorted; [apply sortByRank_sorted|].
    rewrite sortByRank_Permutation.
    apply (documents_distinct db rank).
    intros k1 k2 d1 d2 Hne H1 H2.
    now destruct (Hu k1 k2 d1 d2 Hne H1 H2).
  - rewrite sortByRank_Permutation.
    apply (documents_distinct db siteName).
    intros k1 k2 d1 d2 Hne H1 H2.
    now destruct (Hu k1 k2 d1 d2 Hne H1 H2).
Qed.

Lemma list_strictly_increasing_witness :
  exists l,
    response (app Sample.env2 Sample.db2 GET_all) = json (JItems l) /\
    StronglySorted rank_lt l /\
    NoDup (map siteName l).
Proof.
  exact (list_strictly_increasing Sample.env2 Sample.db2 reachable_db2 eq_refl).
Defined.

(** *** Statuses, store failures, and the console *)

(** X11. The statuses each route can answer: 200 or 500 for the listing;
    201, 400 or 500 for a creation; 200, 404 or 500 for a read, an update
    or a deletion by id. *)
Theorem status_codes (env : Env) (db : Store) (req : Request) :
  let s := status (response (app env db req)) in
  match req with
  | GET_all => s = 200 \/ s = 500
  | POST _ => s = 201 \/ s = 400 \/ s = 500
  | GET_id _ | PUT_id _ _ | DELETE_id _ => s = 200 \/ s = 404 \/ s = 500
  end.
Proof.
  unfold app, Router.route. destruct req as [|b|id|id b|id].
  - unfold Router.get_all. destruct (find_sort_rank env db); reply; auto.
  - unfold Router.post.
    destruct (negb (truthy (b_siteName b))); [reply; auto|].
    destruct (save env db b) as [[db' d]|e]; reply; auto.
  - unfold Router.get_id.
    destruct (findById env db id) as [[d|]|e]; reply; auto.
  - unfold Router.put_id.
    destruct (findByIdAndUpdate env db id b) as [[db' [d|]]|e]; reply; auto.
  - unfold Router.delete_id.
    destruct (findByIdAndDelete env db id) as [[db' [d|]]|e]; reply; auto.
Qed.

(** X12. While the store fails, every request that gets as far as the
    store is answered 500 and changes nothing: the listing, and a read, an
    update with a valid body and a deletion on any well-formed id, with
    the fixed message of the error handler; a creation with a valid body,
    with the message of the store's error. *)
Theorem store_down (env : Env) (db : Store) (e : Error)
    (id : string) (oid : N) (b bu : Body) :
  fault env = Some e ->
  ObjectId.cast id = Some oid ->
  validateSync b = [] ->
  validateUpdate bu = [] ->
  response (app env db GET_all) = serverError /\
  response (app env db (GET_id id)) = serverError /\
  response (app env db (PUT_id id bu)) = serverError /\
  response (app env db (DELETE_id id)) = serverError /\
  response (app env db (POST b)) = createError e /\
  forall req, In req [GET_all; GET_id id; PUT_id id bu; DELETE_id id; POST b] ->
    store (app env db req) = db.
Proof.
  intros Hf Hc Hv Hu.
  assert (Ht : truthy (b_siteName b) = true).
  { apply validateSync_nil in Hv as (Hs & _). exact Hs. }
  assert (H : forall req,
             In req [GET_all; GET_id id; PUT_id id bu; DELETE_id id; POST b] ->
             app env db req
               = mkReply db (match req with
                             | POST _ => createError e
                             | _ => serverError
                             end)
                   (match req with
                    | POST b => [LogReceived b; LogCreateError e]
                    | _ => [LogStack (stack e)]
                    end)).
  { intros req Hin. simpl in Hin.
    destruct Hin as [<-|[<-|[<-|[<-|[<-|[]]]]]];
      unfold app, Router.route, Router.get_all, Router.get_id, Router.put_id,
        Router.delete_id, Router.post, find_sort_rank, findById,
        findByIdAndUpdate, findByIdAndDelete, save;
      rewrite ?Hc, ?Hu, ?Ht, ?Hv, ?Hf; reflexivity. }
  repeat split;
    try (intros req Hin; now rewrite (H req Hin));
    rewrite H; simpl; auto 10.
Qed.

Lemma store_down_witness :
  response (app Sample.env_down Sample.db1 GET_all) = serverError /\
  response (app Sample.env_down Sample.db1 (POST Sample.bravo))
    = createError Sample.refused.
Proof.
  assert (Hc : ObjectId.cast Sample.id1 = Some 1%N) by (vm_compute; reflexivity).
  destruct (store_down Sample.env_down Sample.db1 Sample.refused Sample.id1 1%N
              Sample.bravo Sample.rank2 eq_refl Hc eq_refl eq_refl)
    as (Hl & _ & _ & _ & Hp & _).
  split; assumption.
Defined.

(** X13. What reaches the console: the create route logs the body of every
    request it receives, also of those it refuses, and the error it caught
    if any; the other routes log nothing unless they answer 500, and then
    the error handler logs one stack. *)
Theorem console_entries (env : Env) (db : Store) (req : Request) :
  let r := app env db req in
  match req with
  | POST b =>
      console r = [LogReceived b] /\ status (response r) <> 500 \/
      exists e, console r = [LogReceived b; LogCreateError e] /\
                response r = createError e
  | _ =>
      console r = [] /\ status (response r) <> 500 \/
      exists e, console r = [LogStack (stack e)] /\ response r = serverError
  end.
Proof.
  unfold app, Router.route. destruct req as [|b|id|id b|id].
  - unfold Router.get_all.
    destruct (find_sort_rank env db) as [l|e]; reply;
      [left; split; [reflexivity|discriminate]|right; exists e; auto].
  - unfold Router.post.
    destruct (negb (truthy (b_siteName b)));
      [reply; left; split; [reflexivity|discriminate]|].
    destruct (save env db b) as [[db' d]|e]; reply;
      [left; split; [reflexivity|discriminate]|right; exists e; auto].
  - unfold Router.get_id.
    destruct (findById env db id) as [[d|]|e]; reply;
      [left; split; [reflexivity|discriminate]
      |left; split; [reflexivity|discriminate]|right; exists e; auto].
  - unfold Router.put_id.
    destruct (findByIdAndUpdate env db id b) as [[db' [d|]]|e]; reply;
      [left; split; [reflexivity|discriminate]
      |left; split; [reflexivity|discriminate]|right; exists e; auto].
  - unfold Router.delete_id.
    destruct (findByIdAndDelete env db id) as [[db' [d|]]|e]; reply;
      [left; split; [reflexivity|discriminate]
      |left; split; [reflexivity|discriminate]|right; exists e; auto].
Qed.

(** ** Properties of the pages *)

(** *** The array fields of the forms *)

Lemma setValue_watch (fieldName : ArrayField) (v : FormValues) :
  setValue fieldName (watch fieldName v) v = v.
Proof. destruct fieldName, v; reflexivity. Qed.

Lemma setValue_setValue (fieldName : ArrayField) (a b : list string)
    (v : FormValues) :
  setValue fieldName a (setValue fieldName b v) = setValue fieldName a v.
Proof. destruct fieldName; reflexivity. Qed.

Lemma watch_setValue (fieldName : ArrayField) (a : list string) (v : FormValues) :
  watch fieldName (setValue fieldName a v) = a.
Proof. destruct fieldName; reflexivity. Qed.

Lemma filter_index_below {A} (k : nat) (l : list A) : forall n,
  (k < n)%nat -> filter_index (fun _ i => negb (Nat.eqb i k)) n l = l.
Proof.
  induction l as [|y l IH]; intros n Hn; simpl; [reflexivity|].
  destruct (Nat.eqb n k) eqn:E; [apply Nat.eqb_eq in E; lia|].
  simpl. f_equal. apply IH. lia.
Qed.

Lemma filter_index_remove {A} (l : list A) : forall n index,
  filter_index (fun _ i => negb (Nat.eqb i (n + index))) n l
    = (take index l ++ drop (S index) l)%list.
Proof.
  induction l as [|y l IH]; intros n index; simpl.
  - now destruct index.
  - destruct index as [|index].
    + rewrite Nat.add_0_r, Nat.eqb_refl. simpl. rewrite ?drop_0.
      apply filter_index_below. lia.
    + destruct (Nat.eqb n (n + S index)) eqn:E; [apply Nat.eqb_eq in E; lia|].
      simpl. f_equal.
      replace (n + S index)%nat with (S n + index)%nat by lia. apply IH.
Qed.

(** X14. In both forms, removing the entry at the position where
    [addField] has just put one gives back the form as it was. *)
Theorem remove_added_field (fieldName : ArrayField) (v : FormValues) :
  removeField fieldName (length (watch fieldName v)) (addField fieldName v) = v.
Proof.
  unfold removeField, addField.
  rewrite watch_setValue, setValue_setValue.
  rewrite (filter_index_remove _ 0 (length (watch fieldName v))).
  rewrite take_app_length, drop_ge by (rewrite length_app; simpl; lia).
  rewrite app_nil_r. apply setValue_watch.
Qed.

(** X15. [removeField] drops the entry at [index] of the named array and
    keeps the others in order; the other array and the scalar fields are
    untouched; an index past the end changes nothing. *)
Theorem removeField_spec (fieldName : ArrayField) (index : nat) (v : FormValues) :
  let l := watch fieldName v in
  let v' := removeField fieldName index v in
  watch fieldName v' = (take index l ++ drop (S index) l)%list /\
  (forall other, other <> fieldName -> watch other v' = watch other v) /\
  (v_siteName v', v_logo v', v_rank v', v_welcomeBonus v', v_promoCode v',
   v_createAccountUrl v', v_downloadAppUrl v')
  = (v_siteName v, v_logo v, v_rank v, v_welcomeBonus v, v_promoCode v,
     v_createAccountUrl v, v_downloadAppUrl v) /\
  ((index < length l)%nat -> S (length (watch fieldName v')) = length l) /\
  ((length l <= index)%nat -> v' = v).
Proof.
  cbn zeta. unfold removeField.
  rewrite (filter_index_remove _ 0 index).
  split; [apply watch_setValue|].
  split; [intros other Hne; destruct other, fieldName; congruence || reflexivity|].
  split; [destruct fieldName; reflexivity|].
  split.
  - intros Hlt. rewrite watch_setValue, length_app, length_take, length_drop. lia.
  - intros Hge. rewrite take_ge, drop_ge, app_nil_r by lia.
    apply setValue_watch.
Qed.

Lemma removeField_spec_witness :
  v_advantages (removeField f_advantages 1
                  (mkFormValues None None None None None None None
                     ["a"; "b"; "c"] ["x"]))
    = ["a"; "c"] /\
  removeField f_advantages 3
    (mkFormValues None None None None None None None ["a"; "b"; "c"] ["x"])
    = mkFormValues None None None None None None None ["a"; "b"; "c"] ["x"].
Proof.
  destruct (removeField_spec f_advantages 1
              (mkFormValues None None None None None None None
                 ["a"; "b"; "c"] ["x"])) as (H1 & _).
  destruct (removeField_spec f_advantages 3
              (mkFormValues None None None None None None None
                 ["a"; "b"; "c"] ["x"])) as (_ & _ & _ & _ & H3).
  split; [exact H1|]. apply H3. simpl. lia.
Defined.

(** *** What the schemas of the forms accept *)

Lemma string_min1_nil (k msg : string) (v : option string) :
  Zod.string_min1 k msg v = [] <-> checkRequiredString v = true.
Proof.
  unfold Zod.string_min1, checkRequiredString. destruct v as [s|].
  - destruct (String.eqb s ""); simpl; split; congruence.
  - split; discriminate.
Qed.

Lemma number_min1_nil (k msg : string) (v : option Z) :
  Zod.number_min1 k msg v = [] <-> exists n, v = Some n /\ 1 <= n.
Proof.
  unfold Zod.number_min1. destruct v as [n|].
  - destruct (n <? 1) eqn:E.
    + apply Z.ltb_lt in E. split; [discriminate|].
      intros (n' & [= <-] & Hn). lia.
    + apply Z.ltb_ge in E. split; [eauto|reflexivity].
  - split; [discriminate|]. intros (n & Hn & _). discriminate.
Qed.

Lemma array_min1_nil (k msg : string) (elements : list Zod.Issue)
    (l : list string) :
  Zod.array_min1 k msg elements l = [] <-> l <> [] /\ elements = [].
Proof.
  unfold Zod.array_min1. rewrite app_nil. destruct l as [|x l]; simpl.
  - split; [intros [H _]; discriminate|intros [H _]; congruence].
  - split; [intros [_ H]; split; [discriminate|exact H]|intros [_ H]; auto].
Qed.

Lemma nonempty_from_nil (k : string) (l : list string) : forall i,
  Zod.nonempty_from k i l = [] <-> Forall (fun s => s <> "") l.
Proof.
  induction l as [|s l IH]; intros i; simpl.
  - split; [constructor|reflexivity].
  - rewrite app_nil, IH, Forall_cons. destruct (String.eqb s "") eqn:E.
    + apply String.eqb_eq in E. split; [intros [H _]; discriminate|].
      intros [H _]. contradiction.
    + apply String.eqb_neq in E. tauto.
Qed.

Lemma add_schema_nil (v : FormValues) :
  AddRankItem.rankItemSchema v = [] <->
  checkRequiredString (v_siteName v) = true /\
  checkRequiredString (v_logo v) = true /\
  (exists n, v_rank v = Some n /\ 1 <= n) /\
  checkRequiredString (v_welcomeBonus v) = true /\
  checkRequiredString (v_promoCode v) = true /\
  (v_advantages v <> [] /\ Forall (fun s => s <> "") (v_advantages v)) /\
  (v_payments v <> [] /\ Forall (fun s => s <> "") (v_payments v)).
Proof.
  unfold AddRankItem.rankItemSchema.
  rewrite !app_nil, !string_min1_nil, number_min1_nil, !array_min1_nil,
    !nonempty_from_nil.
  tauto.
Qed.

Lemma edit_schema_nil (v : FormValues) :
  EditRankItem.rankItemSchema v = [] <->
  checkRequiredString (v_siteName v) = true /\
  checkRequiredString (v_logo v) = true /\
  (exists n, v_rank v = Some n /\ 1 <= n) /\
  checkRequiredString (v_welcomeBonus v) = true /\
  checkRequiredString (v_promoCode v) = true /\
  checkRequiredString (v_createAccountUrl v) = true /\
  checkRequiredString (v_downloadAppUrl v) = true /\
  v_advantages v <> [] /\
  v_payments v <> [].
Proof.
  unfold EditRankItem.rankItemSchema.
  rewrite !app_nil, !string_min1_nil, number_min1_nil, !array_min1_nil.
  tauto.
Qed.

(** X16. Values the add form's schema accepts make a body the server's
    validation accepts: the POST is never answered 400, and a record it
    creates has a rank of at least 1, at least one advantage and one
    payment method, none of them empty, and no account or download link. *)
Theorem add_form_accepted (v : FormValues) (env : Env) (db : Store) :
  AddRankItem.rankItemSchema v = [] ->
  let b := bodyOfForm (AddRankItem.parsed v) in
  validateSync b = [] /\
  status (response (app env db (POST b))) <> 400 /\
  (status (response (app env db (POST b))) = 201 ->
   exists d,
     response (app env db (POST b)) = {| status := 201; body := JItem d |} /\
     store (app env db (POST b)) !! _id d = Some d /\
     1 <= rank d /\
     advantages d <> [] /\ Forall (fun s => s <> "") (advantages d) /\
     payments d <> [] /\ Forall (fun s => s <> "") (payments d) /\
     createAccountUrl d = None /\ downloadAppUrl d = None).
Proof.
  intros Hs. cbn zeta.
  apply add_schema_nil in Hs
    as (Hn & Hl & (n & Hr & Hn1) & Hw & Hc & (Ha & Fa) & (Hp & Fp)).
  assert (Hv : validateSync (bodyOfForm (AddRankItem.parsed v)) = []).
  { apply validateSync_nil. cbn. rewrite Hr. auto. }
  split; [exact Hv|]. split.
  - rewrite post_400_iff. cbn. unfold truthy, checkRequiredString in *.
    rewrite Hn. discriminate.
  - intros H201. apply post_created in H201 as (_ & _ & _ & _ & _ & ->).
    exists (construct env (bodyOfForm (AddRankItem.parsed v))). reply.
    split; [reflexivity|]. split; [apply lookup_insert_eq|].
    cbn. rewrite Hr. cbn. auto 10.
Qed.

Lemma add_form_accepted_witness :
  validateSync (bodyOfForm (AddRankItem.parsed Sample.acme_form)) = [] /\
  status (response (app Sample.env1 ∅
            (POST (bodyOfForm (AddRankItem.parsed Sample.acme_form))))) <> 400.
Proof.
  destruct (add_form_accepted Sample.acme_form Sample.env1 ∅) as (Hv & H4 & _);
    [reflexivity|].
  split; assumption.
Defined.

(** *** Submitting the forms *)

Lemma post_ok_iff (env : Env) (db : Store) (b : Body) :
  ok (response (app env db (POST b))) = true <->
  status (response (app env db (POST b))) = 201.
Proof.
  unfold app, Router.route, Router.post.
  destruct (negb (truthy (b_siteName b))); [reply; split; discriminate|].
  destruct (save env db b) as [[db' d]|e]; reply; split;
    discriminate || reflexivity.
Qed.

Lemma listing (env : Env) (db : Store) :
  response (app env db GET_all)
  = match fault env with
    | Some _ => serverError
    | None => json (JItems (sortByRank (documents db)))
    end.
Proof.
  unfold app, Router.route, Router.get_all, find_sort_rank.
  destruct (fault env); reflexivity.
Qed.

Lemma post_refused_keeps_store (env : Env) (db : Store) (b : Body) :
  status (response (app env db (POST b))) <> 201 ->
  store (app env db (POST b)) = db.
Proof.
  intros Hne.
  destruct (store_after env db (POST b))
    as [Hs|[(b' & _ & Hs)|[(id & b' & [=] & _)|(id & [=] & _)]]];
    [exact Hs|contradiction].
Qed.

(** X17. Submitting the add form with values its schema accepts sends one
    POST.  When it is answered 201 the page shows the success toast,
    empties the form and reloads the list from the collection as it now
    is; otherwise it shows the fixed toast 'Error creating item', keeps
    the form and the list, and the collection is unchanged.  The message
    of the server's answer is never shown. *)
Theorem add_submit (envPost envGet : Env) (db : Store) (st : AddRankItem.State) :
  AddRankItem.rankItemSchema (AddRankItem.values st) = [] ->
  let r := app envPost db
             (POST (bodyOfForm (AddRankItem.parsed (AddRankItem.values st)))) in
  let db' := fst (AddRankItem.onSubmit envPost envGet db st) in
  let st' := snd (AddRankItem.onSubmit envPost envGet db st) in
  db' = store r /\
  AddRankItem.loading st' = false /\
  AddRankItem.errors st' = [] /\
  (status (response r) = 201 ->
     AddRankItem.values st' = defaultValues /\
     AddRankItem.toasts st'
       = (AddRankItem.toasts st ++ [ToastSuccess "Item created successfully"] ++
          match fault envGet with
          | Some _ => [ToastError "Error fetching items"]
          | None => []
          end)%list /\
     AddRankItem.allItems st'
       = match fault envGet with
         | Some _ => AddRankItem.allItems st
         | None => sortByRank (documents db')
         end) /\
  (status (response r) <> 201 ->
     db' = db /\
     AddRankItem.values st' = AddRankItem.values st /\
     AddRankItem.allItems st' = AddRankItem.allItems st /\
     AddRankItem.toasts st'
       = (AddRankItem.toasts st ++ [ToastError "Error creating item"])%list).
Proof.
  intros Hs. cbn zeta. unfold AddRankItem.onSubmit. rewrite Hs.
  unfold AddRankItem.handleCreate.
  set (r := app envPost db
              (POST (bodyOfForm (AddRankItem.parsed (AddRankItem.values st))))).
  destruct (ok (response r)) eqn:Hok.
  - apply post_ok_iff in Hok. cbn [fst snd].
    unfold AddRankItem.fetchAllItems. rewrite listing.
    destruct (fault envGet); cbn -[sortByRank documents];
      (split; [reflexivity|]); (split; [reflexivity|]);
      (split; [reflexivity|]);
      (split; [intros _; repeat split; try reflexivity;
               now rewrite <- app_assoc
              |intros Hne; exfalso; apply Hne; exact Hok]).
  - assert (Hne : status (response r) <> 201).
    { intros H. apply post_ok_iff in H. subst r. congruence. }
    cbn [fst snd AddRankItem.loading AddRankItem.errors AddRankItem.values
         AddRankItem.allItems AddRankItem.toasts AddRankItem.toast].
    split; [reflexivity|]. split; [reflexivity|]. split; [reflexivity|].
    split; [intros H; contradiction|]. intros _.
    split; [|repeat split; reflexivity].
    apply post_refused_keeps_store. exact Hne.
Qed.

Lemma add_submit_witness :
  let st' :=
    snd (AddRankItem.onSubmit Sample.env1 Sample.env2 ∅
           (AddRankItem.mkState AddRankItem.form [] false Sample.acme_form [] []))
  in
  AddRankItem.values st' = defaultValues /\
  AddRankItem.toasts st' = [ToastSuccess "Item created successfully"] /\
  AddRankItem.allItems st' = [construct Sample.env1 Sample.acme].
Proof.
  destruct (add_submit Sample.env1 Sample.env2 ∅
    (AddRankItem.mkState AddRankItem.form [] false Sample.acme_form [] [])
    eq_refl) as (_ & _ & _ & H201 & _).
  destruct H201 as (Hv & Ht & Ha); [vm_compute; reflexivity|].
  cbn zeta. split; [exact Hv|]. split; [exact Ht|].
  rewrite Ha. vm_compute. reflexivity.
Defined.

(** X18. Values the edit form's schema accepts name every path of the
    schema and pass the server's update validators; a PUT of them that is
    answered 200 has stored a record holding exactly the values of the
    form. *)
Theorem edit_form_replaces (v : FormValues) (env : Env) (db : Store)
    (id : string) :
  EditRankItem.rankItemSchema v = [] ->
  validateUpdate (bodyOfForm v) = [] /\
  (status (response (app env db (PUT_id id (bodyOfForm v)))) = 200 ->
   exists oid new,
     ObjectId.cast id = Some oid /\
     response (app env db (PUT_id id (bodyOfForm v))) = json (JItem new) /\
     store (app env db (PUT_id id (bodyOfForm v))) !! oid = Some new /\
     formOfItem new = v).
Proof.
  intros Hs.
  apply edit_schema_nil in Hs
    as (Hn & Hl & (n & Hr & Hn1) & Hw & Hc & Hu & Hd & Ha & Hp).
  apply checkRequiredString_true in Hn as (s & Hn & Hn').
  apply checkRequiredString_true in Hl as (l & Hl & Hl').
  apply checkRequiredString_true in Hw as (w & Hw & Hw').
  apply checkRequiredString_true in Hc as (c & Hc & Hc').
  apply checkRequiredString_true in Hu as (u & Hu & Hu').
  apply checkRequiredString_true in Hd as (dl & Hd & Hd').
  destruct v as [vs vl vr vw vc vu vd va vp]. cbn in *. subst.
  assert (Hv : validateUpdate
                 (bodyOfForm (mkFormValues (Some s) (Some l) (Some n) (Some w)
                                (Some c) (Some u) (Some dl) va vp)) = []).
  { unfold validateUpdate. cbn.
    apply String.eqb_neq in Hn', Hl', Hw', Hc'.
    now rewrite Hn', Hl', Hw', Hc'. }
  split; [exact Hv|].
  intros H200. apply put_updated in H200
    as (oid & old & Hcast & _ & _ & _ & _ & ->).
  exists oid, (applyUpdate env old
                 (bodyOfForm (mkFormValues (Some s) (Some l) (Some n) (Some w)
                                (Some c) (Some u) (Some dl) va vp))).
  reply. split; [exact Hcast|]. split; [reflexivity|].
  split; [apply lookup_insert_eq|]. reflexivity.
Qed.

Lemma edit_form_replaces_witness :
  validateUpdate (bodyOfForm Sample.bravo_form) = [] /\
  exists oid new,
    ObjectId.cast Sample.id2 = Some oid /\
    store (app Sample.env1 Sample.db2
             (PUT_id Sample.id2 (bodyOfForm Sample.bravo_form))) !! oid
      = Some new /\
    formOfItem new = Sample.bravo_form.
Proof.
  destruct (edit_form_replaces Sample.bravo_form Sample.env1 Sample.db2
              Sample.id2 eq_refl) as (Hv & H).
  split; [exact Hv|].
  destruct H as (oid & new & Hc & _ & Hs & Hf); [vm_compute; reflexivity|].
  exists oid, new. repeat split; assumption.
Defined.

(** X19. A record created through the add form has neither link, and the
    edit form requires both: opened on such a record and submitted as
    loaded, the edit form reports the two links as required, sends no
    request, and the collection stays as it was. *)
Theorem add_then_edit_blocked (v : FormValues) (envPost envGet envPut : Env)
    (db : Store) :
  AddRankItem.rankItemSchema v = [] ->
  status (response (app envPost db
            (POST (bodyOfForm (AddRankItem.parsed v))))) = 201 ->
  (newObjectId envPost < ObjectId.bound)%N ->
  fault envGet = None ->
  let created := construct envPost (bodyOfForm (AddRankItem.parsed v)) in
  let db' := store (app envPost db (POST (bodyOfForm (AddRankItem.parsed v)))) in
  let id := ObjectId.toHexString (newObjectId envPost) in
  let opened := EditRankItem.fetchItem envGet db' id (EditRankItem.initial id) in
  opened
    = EditRankItem.mkState false (formOfItem created) [] [] ("/edit/" +:+ id) /\
  EditRankItem.onSubmit envPut db' id opened
    = (db', EditRankItem.mkState false (formOfItem created)
              [Zod.mkIssue (Zod.Key "createAccountUrl") "Required";
               Zod.mkIssue (Zod.Key "downloadAppUrl") "Required"]
              [] ("/edit/" +:+ id)).
Proof.
  intros Hs H201 Hb Hf. cbn zeta.
  apply post_created in H201 as (_ & _ & _ & _ & _ & ->). reply.
  assert (Hopen :
    EditRankItem.fetchItem envGet
      (<[newObjectId envPost :=
           construct envPost (bodyOfForm (AddRankItem.parsed v))]> db)
      (ObjectId.toHexString (newObjectId envPost))
      (EditRankItem.initial (ObjectId.toHexString (newObjectId envPost)))
    = EditRankItem.mkState false
        (formOfItem (construct envPost (bodyOfForm (AddRankItem.parsed v))))
        [] [] ("/edit/" +:+ ObjectId.toHexString (newObjectId envPost))).
  { unfold EditRankItem.fetchItem, app, Router.route, Router.get_id, findById.
    rewrite (ObjectIdFacts.cast_toHexString _ Hb), Hf, lookup_insert_eq.
    reflexivity. }
  split; [exact Hopen|]. rewrite Hopen.
  apply add_schema_nil in Hs
    as (Hn & Hl & (n & Hr & Hn1) & Hw & Hc & (Ha & _) & (Hp & _)).
  apply checkRequiredString_true in Hn as (s & Hn & Hn').
  apply checkRequiredString_true in Hl as (l & Hl & Hl').
  apply checkRequiredString_true in Hw as (w & Hw & Hw').
  apply checkRequiredString_true in Hc as (c & Hc & Hc').
  destruct v as [vs vl vr vw vc vu vd va vp]. cbn in Hn, Hl, Hr, Hw, Hc, Ha, Hp.
  subst.
  apply String.eqb_neq in Hn', Hl', Hw', Hc'.
  apply Z.ltb_ge in Hn1.
  unfold EditRankItem.onSubmit, EditRankItem.rankItemSchema.
  cbn -[ObjectId.toHexString insert String.append].
  rewrite Hn', Hl', Hw', Hc', Hn1.
  destruct va as [|a va]; [congruence|]. destruct vp as [|p vp]; [congruence|].
  reflexivity.
Qed.

Lemma add_then_edit_blocked_witness :
  fst (EditRankItem.onSubmit Sample.env2 Sample.db1 Sample.id1
         (EditRankItem.fetchItem Sample.env2 Sample.db1 Sample.id1
            (EditRankItem.initial Sample.id1)))
  = Sample.db1.
Proof.
  destruct (add_then_edit_blocked Sample.acme_form Sample.env1 Sample.env2
              Sample.env2 ∅) as [_ H].
  - reflexivity.
  - vm_compute. reflexivity.
  - reflexivity.
  - reflexivity.
  - exact (f_equal fst H).
Defined.

(** *** The home page *)

Lemma insertByRank_head (d : RankItem) (l : list RankItem) :
  Forall (rank_le d) l -> insertByRank d l = d :: l.
Proof.
  destruct l as [|x l]; [reflexivity|].
  intros H. apply Forall_cons in H as [Hx _]. simpl.
  unfold rank_le in Hx. apply Z.leb_le in Hx. now rewrite Hx.
Qed.

(** Sorting a list that is in ascending order of rank changes nothing. *)
Lemma sortByRank_sorted_id (l : list RankItem) :
  StronglySorted rank_le l -> sortByRank l = l.
Proof.
  induction 1 as [|x l Hs IH Hx]; simpl; [reflexivity|].
  rewrite IH. now apply insertByRank_head.
Qed.

Lemma sortByRank_length (l : list RankItem) : length (sortByRank l) = length l.
Proof. apply Permutation_length, sortByRank_Permutation. Qed.

(** X20. After [fetchBettingSites] the home page shows exactly one thing
    above its fixed sections: the fixed error message when the listing
    failed, whatever the failure was; the empty notice when the collection
    is empty; otherwise the records in the order the server sent them, that
    is by ascending rank: sorting them again in the page changes nothing. *)
Theorem home_view (env : Env) (db : Store) (st : HomePage.State) :
  let st' := HomePage.fetchBettingSites env db st in
  HomePage.view st'
  = match fault env with
    | Some _ =>
        [HomePage.ErrorMessage
           "Impossible de charger les sites de paris. Veuillez réessayer plus tard."]
    | None =>
        if Nat.eqb (size db) 0 then [HomePage.NoResults]
        else [HomePage.BettingSitesList
                (arrayOf (body (response (app env db GET_all))))]
    end.
Proof.
  cbn zeta. unfold HomePage.fetchBettingSites. rewrite listing.
  destruct (fault env) as [e|].
  - reflexivity.
  - cbn -[sortByRank documents size]. unfold HomePage.view, HomePage.sort_by_rank.
    cbn -[sortByRank documents size Nat.eqb Nat.ltb].
    rewrite (sortByRank_sorted_id (sortByRank (documents db)))
      by apply sortByRank_sorted.
    rewrite sortByRank_length, documents_length.
    destruct (size db) as [|n]; reflexivity.
Qed.

(** *** The list page *)

Lemma toHexString_inj (a b : N) :
  (a < ObjectId.bound)%N -> (b < ObjectId.bound)%N ->
  ObjectId.toHexString a = ObjectId.toHexString b -> a = b.
Proof.
  intros Ha Hb E.
  pose proof (ObjectIdFacts.cast_toHexString a Ha) as Ca.
  pose proof (ObjectIdFacts.cast_toHexString b Hb) as Cb.
  rewrite E in Ca. congruence.
Qed.

Lemma StronglySorted_filter {A} (R : A -> A -> Prop) (p : A -> bool)
    (l : list A) :
  StronglySorted R l -> StronglySorted R (List.filter p l).
Proof.
  induction 1 as [|x l Hs IH Hx]; simpl; [constructor|].
  destruct (p x); [|exact IH].
  constructor; [exact IH|].
  rewrite Forall_forall in Hx |- *.
  intros y Hy. apply list_elem_of_In, filter_In in Hy as [Hy _].
  apply Hx. now apply list_elem_of_In.
Qed.

Lemma ok_json (v : Json) : ok (json v) = true.
Proof. reflexivity. Qed.

Lemma elem_of_filter_bool {A} (p : A -> bool) (l : list A) (x : A) :
  x ∈ List.filter p l <-> x ∈ l /\ p x = true.
Proof. rewrite !list_elem_of_In. apply filter_In. Qed.

Lemma NoDup_filter_bool {A} (p : A -> bool) (l : list A) :
  NoDup l -> NoDup (List.filter p l).
Proof.
  induction 1 as [|x l Hx Hl IH]; simpl; [constructor|].
  destruct (p x); [|exact IH].
  constructor; [|exact IH]. rewrite elem_of_filter_bool. tauto.
Qed.

(** X21. On the list page, when the list shown is the listing of a
    collection the API produced and the user confirms the deletion of a
    shown record, the server deletes that record and the list the page
    keeps, which it computes itself by dropping the record, is the listing
    of the collection as it now is. *)
Theorem list_delete_agrees (env : Env) (db : Store)
    (st : RankItemsList.State) (item : RankItem) :
  Reachable db ->
  (forall k, is_Some (db !! k) -> (k < ObjectId.bound)%N) ->
  RankItemsList.items st = sortByRank (documents db) ->
  item ∈ RankItemsList.items st ->
  fault env = None ->
  let id := ObjectId.toHexString (_id item) in
  let db' := fst (RankItemsList.handleDelete true env db id st) in
  let st' := snd (RankItemsList.handleDelete true env db id st) in
  db' = delete (_id item) db /\
  RankItemsList.items st' = sortByRank (documents db') /\
  ~ item ∈ RankItemsList.items st' /\
  RankItemsList.error st' = RankItemsList.error st.
Proof.
  intros Hreach Hbound Hitems Hin Hf. cbn zeta.
  pose proof (keyed_reachable db Hreach) as Hkeyed.
  pose proof (unique_reachable db Hreach) as Huniq.
  assert (Hstored : db !! _id item = Some item).
  { rewrite Hitems, sortByRank_Permutation in Hin.
    apply elem_of_documents in Hin as [k Hk].
    now rewrite (Hkeyed k item Hk). }
  assert (Hb : (_id item < ObjectId.bound)%N) by (apply Hbound; eauto).
  assert (Hdel :
    app env db (DELETE_id (ObjectId.toHexString (_id item)))
    = mkReply (delete (_id item) db)
        (json (JMessage "Rank item deleted successfully")) []).
  { unfold app, Router.route, Router.delete_id, findByIdAndDelete.
    now rewrite (ObjectIdFacts.cast_toHexString _ Hb), Hf, Hstored. }
  unfold RankItemsList.handleDelete. rewrite Hdel.
  cbn [negb response store]. rewrite ok_json.
  cbn [fst snd RankItemsList.items RankItemsList.error].
  assert (Hmem : forall x,
            x ∈ List.filter
                  (RankItemsList.other_than (ObjectId.toHexString (_id item)))
                  (RankItemsList.items st)
            <-> x ∈ documents (delete (_id item) db)).
  { intros x. rewrite elem_of_filter_bool, Hitems, sortByRank_Permutation.
    rewrite !elem_of_documents. unfold RankItemsList.other_than.
    rewrite negb_true_iff, String.eqb_neq. split.
    - intros [[k Hk] Hne]. exists k. apply lookup_delete_Some.
      split; [|exact Hk]. intros <-.
      rewrite Hstored in Hk. injection Hk as <-. now apply Hne.
    - intros [k Hk]. apply lookup_delete_Some in Hk as [Hne Hk].
      split; [eauto|]. intros E. apply Hne.
      rewrite <- (Hkeyed k x Hk).
      apply toHexString_inj; [| |now symmetry].
      + exact Hb.
      + rewrite (Hkeyed k x Hk). apply Hbound. eauto. }
  split; [reflexivity|]. split; [|split; [|reflexivity]].
  - apply (StronglySorted_unique_strong rank_le).
    + intros x1 x2 H1 H2 Hle1 Hle2.
      apply Hmem, elem_of_documents in H1 as [k1 H1].
      rewrite sortByRank_Permutation in H2.
      apply elem_of_documents in H2 as [k2 H2].
      apply lookup_delete_Some in H1 as [_ H1].
      apply lookup_delete_Some in H2 as [_ H2].
      destruct (decide (k1 = k2)) as [->|Hne]; [congruence|].
      destruct (Huniq k1 k2 x1 x2 Hne H1 H2) as [_ Hr].
      unfold rank_le in *. lia.
    + apply StronglySorted_filter. rewrite Hitems. apply sortByRank_sorted.
    + apply sortByRank_sorted.
    + rewrite sortByRank_Permutation. apply NoDup_Permutation.
      * apply NoDup_filter_bool.
        rewrite Hitems, sortByRank_Permutation.
        apply (NoDup_fmap_1 rank), (documents_distinct db rank).
        intros k1 k2 d1 d2 Hne H1 H2.
        now destruct (Huniq k1 k2 d1 d2 Hne H1 H2).
      * apply (NoDup_fmap_1 rank),
          (documents_distinct (delete (_id item) db) rank).
        intros k1 k2 d1 d2 Hne H1 H2.
        apply lookup_delete_Some in H1 as [_ H1].
        apply lookup_delete_Some in H2 as [_ H2].
        now destruct (Huniq k1 k2 d1 d2 Hne H1 H2).
      * exact Hmem.
  - intros Hx. apply Hmem, elem_of_documents in Hx as [k Hk].
    apply lookup_delete_Some in Hk as [Hne Hk].
    apply Hne. exact (Hkeyed k item Hk).
Qed.

Lemma db2_keys (k : N) : is_Some (Sample.db2 !! k) -> k = 1%N \/ k = 2%N.
Proof.
  intros [d Hk]. unfold Sample.db2, Sample.db1 in Hk.
  assert (H1 : status (response (app Sample.env1 ∅ (POST Sample.acme))) = 201)
    by (vm_compute; reflexivity).
  apply post_created in H1 as (_ & _ & _ & _ & _ & E1).
  rewrite E1 in Hk. cbn [store] in Hk.
  assert (H2 : status (response
                 (app Sample.env2
                    (<[newObjectId Sample.env1 :=
                         construct Sample.env1 Sample.acme]> ∅)
                    (POST Sample.bravo))) = 201)
    by (vm_compute; reflexivity).
  apply post_created in H2 as (_ & _ & _ & _ & _ & E2).
  rewrite E2 in Hk. cbn [store] in Hk.
  apply lookup_insert_Some in Hk as [[<- _]|[_ Hk]]; [now right|].
  apply lookup_insert_Some in Hk as [[<- _]|[_ Hk]]; [now left|].
  rewrite lookup_empty in Hk. discriminate.
Qed.

Lemma list_delete_agrees_witness :
  let st := RankItemsList.mkState (sortByRank (documents Sample.db2)) false None in
  let after := RankItemsList.handleDelete true Sample.env1 Sample.db2
                 Sample.id1 st in
  fst after = delete 1%N Sample.db2 /\
  RankItemsList.items (snd after) = sortByRank (documents (fst after)).
Proof.
  cbn zeta.
  destruct (list_delete_agrees Sample.env1 Sample.db2
              (RankItemsList.mkState (sortByRank (documents Sample.db2)) false None)
              (construct Sample.env1 Sample.acme))
    as (Hd & Hi & _).
  - exact reachable_db2.
  - intros k Hk. destruct (db2_keys k Hk) as [->| ->]; reflexivity.
  - reflexivity.
  - cbn [RankItemsList.items]. rewrite sortByRank_Permutation.
    apply elem_of_documents. exists 1%N. vm_compute. reflexivity.
  - reflexivity.
  - split; [exact Hd|exact Hi].
Defined.

(** *** Updates that collide, and the edit page end to end *)

(** X22. A PUT that would give a record the site name or the rank of
    another stored record is answered 500 by the error handler and stores
    nothing: two records cannot exchange ranks by two updates. *)
Theorem update_onto_taken (env : Env) (db : Store) (id : string) (b : Body)
    (oid k : N) (old o : RankItem) :
  ObjectId.cast id = Some oid ->
  db !! oid = Some old ->
  k <> oid ->
  db !! k = Some o ->
  validateUpdate b = [] ->
  fault env = None ->
  b_siteName b = Some (siteName o) \/ b_rank b = Some (rank o) ->
  response (app env db (PUT_id id b)) = serverError /\
  store (app env db (PUT_id id b)) = db.
Proof.
  intros Hc Hold Hne Hk Hv Hf Htaken.
  unfold app, Router.route, Router.put_id, findByIdAndUpdate.
  rewrite Hc, Hv, Hf, Hold.
  destruct (duplicateIndex oid (applyUpdate env old b) db) as [index|] eqn:Hd.
  - reply. split; reflexivity.
  - exfalso. rewrite duplicateIndex_None in Hd.
    destruct (Hd k o Hne Hk) as [Hs Hr].
    unfold applyUpdate in Hs, Hr. cbn [siteName rank] in Hs, Hr.
    destruct Htaken as [E|E]; rewrite E in *; cbn in *; congruence.
Qed.

Lemma update_onto_taken_witness :
  response (app Sample.env1 Sample.db2 (PUT_id Sample.id1 Sample.rank2))
    = serverError /\
  store (app Sample.env1 Sample.db2 (PUT_id Sample.id1 Sample.rank2))
    = Sample.db2.
Proof.
  assert (Hc : ObjectId.cast Sample.id1 = Some 1%N) by (vm_compute; reflexivity).
  assert (H1 : Sample.db2 !! 1%N = Some (construct Sample.env1 Sample.acme))
    by (vm_compute; reflexivity).
  assert (H2 : Sample.db2 !! 2%N = Some (construct Sample.env2 Sample.bravo))
    by (vm_compute; reflexivity).
  assert (Hne : 2%N <> 1%N) by discriminate.
  apply (update_onto_taken Sample.env1 Sample.db2 Sample.id1 Sample.rank2
           1%N 2%N _ _ Hc H1 Hne H2 eq_refl eq_refl).
  right. reflexivity.
Defined.

Lemma put_ok_iff (env : Env) (db : Store) (id : string) (b : Body) :
  ok (response (app env db (PUT_id id b))) = true <->
  status (response (app env db (PUT_id id b))) = 200.
Proof.
  unfold app, Router.route, Router.put_id.
  destruct (findByIdAndUpdate env db id b) as [[db' [d|]]|e]; reply; split;
    discriminate || reflexivity.
Qed.

(** X23. The edit page end to end, on a collection the API produced:
    opened on a stored record that has both links, a rank of at least 1
    and at least one advantage and payment method, and submitted as
    loaded, it sends one PUT that is accepted; the page shows the success
    toast and goes to the add page, and the record is stored as it was,
    with [updatedAt] refreshed. *)
Theorem edit_unchanged (envGet envPut : Env) (db : Store) (oid : N)
    (d : RankItem) (u a : string) :
  Reachable db ->
  db !! oid = Some d ->
  (oid < ObjectId.bound)%N ->
  createAccountUrl d = Some u -> u <> "" ->
  downloadAppUrl d = Some a -> a <> "" ->
  1 <= rank d ->
  advantages d <> [] ->
  payments d <> [] ->
  fault envGet = None ->
  fault envPut = None ->
  let id := ObjectId.toHexString oid in
  let opened := EditRankItem.fetchItem envGet db id (EditRankItem.initial id) in
  exists new,
    EditRankItem.onSubmit envPut db id opened
      = (<[oid := new]> db,
         EditRankItem.mkState false (formOfItem d) []
           [ToastSuccess "Item updated successfully"] "/add-rank-item") /\
    bodyOf new = bodyOf d /\
    _id new = _id d /\
    createdAt new = createdAt d /\
    updatedAt new = now envPut.
Proof.
  intros Hreach Hd Hb Hu Hu' Ha Ha' Hr Hadv Hpay HfG HfP. cbn zeta.
  pose proof (reachable_conforms db Hreach oid d Hd) as Hconf.
  assert (Hcast : ObjectId.cast (ObjectId.toHexString oid) = Some oid)
    by now apply ObjectIdFacts.cast_toHexString.
  destruct (put_own_values envPut db (ObjectId.toHexString oid) oid d
              Hreach Hcast Hd HfP) as (new & Hput & Hnew).
  exists new. split; [|exact Hnew].
  assert (Hopen :
    EditRankItem.fetchItem envGet db (ObjectId.toHexString oid)
      (EditRankItem.initial (ObjectId.toHexString oid))
    = EditRankItem.mkState false (formOfItem d) [] []
        ("/edit/" +:+ ObjectId.toHexString oid)).
  { unfold EditRankItem.fetchItem, app, Router.route, Router.get_id, findById.
    rewrite Hcast, HfG, Hd. reflexivity. }
  rewrite Hopen. unfold EditRankItem.onSubmit.
  cbn [EditRankItem.values EditRankItem.loading EditRankItem.toasts
       EditRankItem.location].
  assert (Hschema : EditRankItem.rankItemSchema (formOfItem d) = []).
  { apply edit_schema_nil.
    unfold conforms in Hconf. apply validateSync_nil in Hconf
      as (Hs & Hl & Hw & Hc & _).
    unfold formOfItem. cbn. rewrite Hu, Ha. cbn.
    apply String.eqb_neq in Hu', Ha'. rewrite Hu', Ha'.
    repeat split; try assumption; eauto. }
  rewrite Hschema. unfold EditRankItem.handleUpdate.
  change (bodyOfForm (formOfItem d)) with (bodyOf d).
  rewrite Hput. cbn [response store]. rewrite ok_json. reflexivity.
Qed.

Lemma edit_unchanged_witness :
  let d := applyUpdate Sample.env1 (construct Sample.env2 Sample.bravo)
             (bodyOfForm Sample.bravo_form) in
  let id := ObjectId.toHexString 2%N in
  exists new,
    EditRankItem.onSubmit Sample.env1 Sample.db3 id
      (EditRankItem.fetchItem Sample.env1 Sample.db3 id
         (EditRankItem.initial id))
    = (<[2%N := new]> Sample.db3,
       EditRankItem.mkState false (formOfItem d) []
         [ToastSuccess "Item updated successfully"] "/add-rank-item").
Proof.
  assert (Hreach : Reachable Sample.db3)
    by exact (reach_step Sample.env1
                (PUT_id Sample.id2 (bodyOfForm Sample.bravo_form)) _
                reachable_db2).
  assert (H2 : Sample.db3 !! 2%N
               = Some (applyUpdate Sample.env1
                         (construct Sample.env2 Sample.bravo)
                         (bodyOfForm Sample.bravo_form)))
    by (vm_compute; reflexivity).
  assert (Hb : (2 < ObjectId.bound)%N) by reflexivity.
  assert (Hu : "http://x/b/join" <> "") by discriminate.
  assert (Ha : "http://x/b/app" <> "") by discriminate.
  assert (Hr : 1 <= 2) by lia.
  assert (Hadv : ["Live odds"] <> []) by discriminate.
  assert (Hpay : ["Mastercard"] <> []) by discriminate.
  destruct (edit_unchanged Sample.env1 Sample.env1 Sample.db3 2%N _
              "http://x/b/join" "http://x/b/app" Hreach H2 Hb eq_refl Hu
              eq_refl Ha Hr Hadv Hpay eq_refl eq_refl)
    as (new & Hsub & _).
  exists new. exact Hsub.
Defined.
